(** * The crop recommendation form: the [/predict] handler of [app.py]

    A shallow embedding of [app.py]: the start-up loading of the four
    pickled artifacts ([safe_load]) and the request handler [predict],
    together with the few Python built-ins the handler leans on
    ([str.strip], [float], [int], truth values, [str]).

    Conventions.
    - A Python [str] is a [string]; each character stands for one code
      point below 256.
    - A Python [float] is a binary64 number, a [spec_float] of the
      Standard Library's [SpecFloat] with precision 53 and [emax] 1024.
    - A raised exception is a value of [exn]; a call that may raise
      returns a [result].
    - What [print] writes is collected as a list of lines.
    - The pickled scalers, classifier and label encoder are objects of
      scikit-learn; they are records of functions here, and the matrices
      they exchange are lists of rows. *)

From Stdlib Require Import ZArith List Bool Ascii String Lia.
From Stdlib Require Import DecimalString.
From Stdlib Require Import Floats.SpecFloat.
Import ListNotations.

Local Open Scope Z_scope.
Local Open Scope list_scope.

(* ================================================================== *)
(** ** Exceptions and results *)

Inductive exc_class : Type :=
| ValueError
| TypeError
| OverflowError
| IndexError
| OtherException (name : string).

(** An exception object: its class and the text [str(e)] gives. Every
    class here derives from [Exception]. *)
Record exn : Type := mk_exn { exn_class : exc_class; exn_msg : string }.

Inductive result (A : Type) : Type :=
| Ok (a : A)
| Raise (e : exn).
Arguments Ok {A} a.
Arguments Raise {A} e.

Definition is_ValueError (e : exn) : bool :=
  match exn_class e with ValueError => true | _ => false end.

(* ================================================================== *)
(** ** Characters and whitespace *)

Definition code (c : ascii) : Z := Z.of_N (N_of_ascii c).

Definition in_range (lo hi : Z) (c : ascii) : bool :=
  (lo <=? code c) && (code c <=? hi).

(** [str.isspace] on a code point below 256: TAB..CR, FS..US, SPACE,
    NEL and NBSP. This is the set [str.strip()] removes. *)
Definition is_space (c : ascii) : bool :=
  in_range 9 13 c || in_range 28 32 c || (code c =? 133) || (code c =? 160).

(** The whitespace [float()] and [int()] skip around a literal: the
    same set without FS..US, which those two do not take for blanks. *)
Definition is_literal_space (c : ascii) : bool :=
  in_range 9 13 c || (code c =? 32) || (code c =? 133) || (code c =? 160).

Definition is_digit (c : ascii) : bool := in_range 48 57 c.

Definition digit_value (c : ascii) : Z := code c - 48.

(** ASCII lower-casing, for the case-insensitive words [inf] and [nan]. *)
Definition lower (c : ascii) : ascii :=
  if in_range 65 90 c then ascii_of_N (N_of_ascii c + 32) else c.

Fixpoint lstrip_by (sp : ascii -> bool) (l : list ascii) : list ascii :=
  match l with
  | c :: t => if sp c then lstrip_by sp t else l
  | [] => []
  end.

Definition strip_by (sp : ascii -> bool) (l : list ascii) : list ascii :=
  rev (lstrip_by sp (rev (lstrip_by sp l))).

(** [s.strip()] *)
Definition py_strip (s : string) : string :=
  string_of_list_ascii (strip_by is_space (list_ascii_of_string s)).

(* ================================================================== *)
(** ** Numeric literals *)

(** [(["_"] digit)*]: the rest of a [digitpart] after its first digit.
    Returns the digits read and the unread input. *)
Fixpoint digitpart_tail (l : list ascii) : list ascii * list ascii :=
  match l with
  | c :: t =>
      if is_digit c then
        let (ds, r) := digitpart_tail t in (c :: ds, r)
      else if (code c =? 95) then
        match t with
        | d :: t' =>
            if is_digit d then
              let (ds, r) := digitpart_tail t' in (d :: ds, r)
            else ([], l)
        | [] => ([], l)
        end
      else ([], l)
  | [] => ([], [])
  end.

(** [digitpart ::= digit (["_"] digit)*] *)
Definition digitpart (l : list ascii) : option (list ascii * list ascii) :=
  match l with
  | c :: t =>
      if is_digit c then
        let (ds, r) := digitpart_tail t in Some (c :: ds, r)
      else None
  | [] => None
  end.

(** A possibly empty [digitpart]. *)
Definition opt_digitpart (l : list ascii) : list ascii * list ascii :=
  match digitpart l with
  | Some p => p
  | None => ([], l)
  end.

Definition digits_value (ds : list ascii) : Z :=
  fold_left (fun acc d => 10 * acc + digit_value d) ds 0.

(** An optional sign; [true] is minus. *)
Definition sign (l : list ascii) : bool * list ascii :=
  match l with
  | c :: t =>
      if code c =? 45 then (true, t)
      else if code c =? 43 then (false, t)
      else (false, l)
  | [] => (false, l)
  end.

(** The binary64 nearest to [(-1)^neg * d * 10^x], ties to even;
    overflow gives an infinity, underflow a subnormal or a zero. *)
Definition decimal_to_double (neg : bool) (d x : Z) : spec_float :=
  if d =? 0 then S754_zero neg
  else if 0 <=? x then
    binary_normalize 53 1024 (cond_Zopp neg (d * 10 ^ x)) 0 neg
  else
    let '(q, e, l) := SFdiv_core_binary 53 1024 d 0 (10 ^ (- x)) 0 in
    binary_round_aux 53 1024 neg q e l.

(** [exponent ::= ("e" | "E") [sign] digitpart]; an absent exponent
    is 0. [None] when the input is neither empty nor an exponent. *)
Definition exponent (l : list ascii) : option Z :=
  match l with
  | [] => Some 0
  | c :: t =>
      if (code c =? 101) || (code c =? 69) then
        let (neg, t') := sign t in
        match digitpart t' with
        | Some (ds, []) => Some (cond_Zopp neg (digits_value ds))
        | _ => None
        end
      else None
  end.

(** [floatnumber ::= number [exponent]] with
    [number ::= [digitpart] "." digitpart | digitpart ["."]]. *)
Definition floatnumber (neg : bool) (l : list ascii) : option spec_float :=
  let (ip, r) := opt_digitpart l in
  let '(fp, r') :=
    match r with
    | c :: t => if code c =? 46 then opt_digitpart t else ([], r)
    | [] => ([], r)
    end in
  match ip, fp with
  | [], [] => None
  | _, _ =>
      match exponent r' with
      | Some x =>
          Some (decimal_to_double neg (digits_value (ip ++ fp))
                  (x - Z.of_nat (List.length fp)))
      | None => None
      end
  end.

Local Open Scope string_scope.

Definition word_inf : list ascii := list_ascii_of_string "inf".
Definition word_infinity : list ascii := list_ascii_of_string "infinity".
Definition word_nan : list ascii := list_ascii_of_string "nan".

Definition list_ascii_eqb (a b : list ascii) : bool :=
  String.eqb (string_of_list_ascii a) (string_of_list_ascii b).

(** [floatvalue ::= [sign] (floatnumber | infinity | nan)] *)
Definition floatvalue (l : list ascii) : option spec_float :=
  let (neg, r) := sign l in
  let w := map lower r in
  if list_ascii_eqb w word_inf || list_ascii_eqb w word_infinity
  then Some (S754_infinity neg)
  else if list_ascii_eqb w word_nan then Some S754_nan
  else floatnumber neg r.

(** [repr(s)] of a string: single quotes unless the text holds a single
    quote and no double quote; the quote and the backslash escaped;
    [\t], [\n], [\r]; other unprintable characters as [\xhh]. *)
Definition hex_digit (n : Z) : ascii :=
  ascii_of_N (Z.to_N (if (n <? 10)%Z then 48 + n else 87 + n)).

Definition is_printable (c : ascii) : bool :=
  in_range 32 126 c || (in_range 161 255 c && negb (code c =? 173)%Z).

Definition repr_char (quote c : ascii) : list ascii :=
  if Ascii.eqb c quote || (code c =? 92)%Z then ["\"%char; c]
  else if (code c =? 9)%Z then ["\"; "t"]%char
  else if (code c =? 10)%Z then ["\"; "n"]%char
  else if (code c =? 13)%Z then ["\"; "r"]%char
  else if is_printable c then [c]
  else ["\"%char; "x"%char; hex_digit (code c / 16); hex_digit (code c mod 16)].

Definition py_repr (s : string) : string :=
  let l := list_ascii_of_string s in
  let has c := existsb (Ascii.eqb c) l in
  let quote := if has "'"%char && negb (has "034"%char) then "034"%char else "'"%char in
  string_of_list_ascii ((quote :: flat_map (repr_char quote) l) ++ [quote])%list.

(** [float(s)] on a string: blanks around the literal are skipped, a
    text that is not a [floatvalue] raises [ValueError]. *)
Definition py_float (s : string) : result spec_float :=
  match floatvalue (strip_by is_literal_space (list_ascii_of_string s)) with
  | Some f => Ok f
  | None =>
      Raise (mk_exn ValueError ("could not convert string to float: " ++ py_repr s))
  end.

(** [int(s)] on a string, base 10: [[sign] digitpart] between blanks.
    The error text shows at most 200 characters of [repr(s)]. The
    interpreter's adjustable cap on the number of digits (4300 by
    default since Python 3.11) is left out. *)
Definition int_literal (l : list ascii) : option Z :=
  let (neg, r) := sign l in
  match digitpart r with
  | Some (ds, []) => Some (cond_Zopp neg (digits_value ds))
  | _ => None
  end.

Definition py_int_of_str (s : string) : result Z :=
  match int_literal (strip_by is_literal_space (list_ascii_of_string s)) with
  | Some z => Ok z
  | None =>
      Raise (mk_exn ValueError
               ("invalid literal for int() with base 10: "
                ++ substring 0 200 (py_repr s)))
  end.

(** [int(x)] on a float: truncation toward zero; NaN and the
    infinities raise. *)
Definition py_int_of_float (f : spec_float) : result Z :=
  match f with
  | S754_zero _ => Ok 0
  | S754_finite s m e => Ok (cond_Zopp s (Z.shiftl (Zpos m) e))
  | S754_nan => Raise (mk_exn ValueError "cannot convert float NaN to integer")
  | S754_infinity _ =>
      Raise (mk_exn OverflowError "cannot convert float infinity to integer")
  end.

(* ================================================================== *)
(** ** Python values *)

(** The values a label can be: an element of a fitted estimator's
    [classes_] (an integer, a float or a string) or [None]. A float
    comes with the text [str] gives for it: Python's own floats and
    NumPy's print the shortest decimal that reads back as the same
    number of their width, so the text belongs to the object. *)
Inductive pyval : Type :=
| PyNone
| PyInt (z : Z)
| PyFloat (f : spec_float) (text : string)
| PyStr (s : string).

(** [int(v)] *)
Definition py_int (v : pyval) : result Z :=
  match v with
  | PyInt z => Ok z
  | PyFloat f _ => py_int_of_float f
  | PyStr s => py_int_of_str s
  | PyNone =>
      Raise (mk_exn TypeError
               "int() argument must be a string, a bytes-like object or a real number, not 'NoneType'")
  end.

(** [bool(v)]: the truth value an [if] tests. *)
Definition py_bool (v : pyval) : bool :=
  match v with
  | PyNone => false
  | PyInt z => negb (z =? 0)%Z
  | PyFloat (S754_zero _) _ => false
  | PyFloat _ _ => true
  | PyStr s => negb (s =? "")
  end.

(** [v is None] *)
Definition is_None (v : pyval) : bool :=
  match v with PyNone => true | _ => false end.

(** [isinstance(v, str)] *)
Definition isinstance_str (v : pyval) : bool :=
  match v with PyStr _ => true | _ => false end.

(** [str(z)] for an integer. *)
Definition str_of_int (z : Z) : string := NilZero.string_of_int (Z.to_int z).

(** [str(v)], what an f-string puts for [{v}]. *)
Definition py_str (v : pyval) : string :=
  match v with
  | PyNone => "None"
  | PyInt z => str_of_int z
  | PyFloat _ text => text
  | PyStr s => s
  end.

(** [a[0]] on an array: [IndexError] when it is empty. *)
Definition getitem0 {A : Type} (a : list A) : result A :=
  match a with
  | x :: _ => Ok x
  | [] => Raise (mk_exn IndexError "index 0 is out of bounds for axis 0 with size 0")
  end.

(** [d.get(k)] on a dict given as its items. *)
Fixpoint dict_get (d : list (Z * string)) (k : Z) : pyval :=
  match d with
  | (k', v) :: d' => if (k' =? k)%Z then PyStr v else dict_get d' k
  | [] => PyNone
  end.

(** [request.form.get(name)]: the form is a multi-dict, [get] gives the
    first value sent under the name. *)
Definition multidict : Type := list (string * string).

Fixpoint form_get (form : multidict) (name : string) : option string :=
  match form with
  | (k, v) :: form' => if k =? name then Some v else form_get form' name
  | [] => None
  end.

(* ================================================================== *)
(** ** Printing, sequencing, early return *)

(** A computation that prints: its value and the lines written. *)
Definition io (A : Type) : Type := A * list string.

Definition io_ret {A : Type} (a : A) : io A := (a, []).

Definition io_bind {A B : Type} (m : io A) (k : A -> io B) : io B :=
  let (a, out) := m in
  let (b, out') := k a in
  (b, out ++ out')%list.

Definition print (line : string) : io unit := (tt, [line]).

Notation "x <- m ;; k" := (io_bind m (fun x => k))
  (at level 61, m at next level, right associativity).
Notation "m ;; k" := (io_bind m (fun _ => k))
  (at level 61, right associativity).

Definition res_bind {A B : Type} (r : result A) (k : A -> result B) : result B :=
  match r with
  | Ok a => k a
  | Raise e => Raise e
  end.

Notation "x <-? r ;; k" := (res_bind r (fun x => k))
  (at level 61, r at next level, right associativity).

(** [try: v = body  except Exception as e: v = handler(e)] *)
Definition try_except {A : Type} (body : result A) (handler : exn -> io A) : io A :=
  match body with
  | Ok a => io_ret a
  | Raise e => handler e
  end.

(* ================================================================== *)
(** ** The pickled artifacts *)

Definition matrix : Type := list (list spec_float).

(** A fitted scaler: [transform(X)]. *)
Record scaler : Type := { transform : matrix -> result matrix }.

(** A fitted classifier: [predict(X)], one label per row of [X]. *)
Record classifier : Type := { clf_predict : matrix -> result (list pyval) }.

(** A fitted label encoder: [inverse_transform(codes)]. *)
Record encoder : Type := { inverse_transform : list Z -> result (list pyval) }.

(** The four module-level variables [model], [sc], [ms] and
    [label_encoder]; [None] is Python's [None]. *)
Record artifacts : Type := {
  model : option classifier;
  sc : option scaler;
  ms : option scaler;
  label_encoder : option encoder
}.

(** *** Loading at start-up *)

(** [os.path.join(a, b)] for a relative [b]. *)
Definition ends_with_slash (a : string) : bool :=
  match rev (list_ascii_of_string a) with
  | c :: _ => (code c =? 47)%Z
  | [] => false
  end.

Definition path_join (a b : string) : string :=
  if (a =? "") || ends_with_slash a then a ++ b else a ++ "/" ++ b.

(** [safe_load(path, loader)]. What [loader(path)] gives is returned as
    it is: the object in the file, or [None] when the pickle holds
    [None]. *)
Definition safe_load {A : Type} (exists_ : string -> bool)
    (loader : string -> result (option A)) (path : string) : io (option A) :=
  if exists_ path then
    match loader path with
    | Ok obj => io_ret obj
    | Raise e =>
        print ("[ERROR] Failed to load " ++ py_repr path ++ ": " ++ exn_msg e) ;;
        io_ret None
    end
  else
    print ("[WARN] File not found: " ++ path) ;;
    io_ret None.

(** What [joblib.load] finds on disk: for each path, the object
    pickled there ([None] for a pickle of [None]) or the exception the
    load raises. *)
Record disk : Type := {
  path_exists : string -> bool;
  load_classifier : string -> result (option classifier);
  load_scaler : string -> result (option scaler);
  load_encoder : string -> result (option encoder)
}.

Definition print_if_loaded {A : Type} (obj : option A) (line : string) : io unit :=
  match obj with
  | Some _ => print line
  | None => io_ret tt
  end.

(** The module body above the Flask app: the four loads and their
    confirmations. [BASE_DIR] is the directory of [app.py]. *)
Definition load_artifacts (BASE_DIR : string) (d : disk) : io artifacts :=
  let MODEL_PATH := path_join BASE_DIR "model.pkl" in
  let STAND_SCALER_PATH := path_join BASE_DIR "standscaler.pkl" in
  let MINMAX_SCALER_PATH := path_join BASE_DIR "minmaxscaler.pkl" in
  let LABEL_ENCODER_PATH := path_join BASE_DIR "label_encoder.pkl" in
  model <- safe_load (path_exists d) (load_classifier d) MODEL_PATH ;;
  sc <- safe_load (path_exists d) (load_scaler d) STAND_SCALER_PATH ;;
  ms <- safe_load (path_exists d) (load_scaler d) MINMAX_SCALER_PATH ;;
  label_encoder <- safe_load (path_exists d) (load_encoder d) LABEL_ENCODER_PATH ;;
  print_if_loaded model "Model loaded." ;;
  print_if_loaded sc "Standard scaler loaded." ;;
  print_if_loaded ms "MinMax scaler loaded." ;;
  print_if_loaded label_encoder "Label encoder loaded." ;;
  io_ret {| model := model; sc := sc; ms := ms; label_encoder := label_encoder |}.

(* ================================================================== *)
(** ** The views *)

(** [render_template(name, result=...)]: a page is kept as the name of
    its template and the text bound to [result], if any. *)
Record page : Type := { template : string; page_result : option string }.

Definition render_template (name : string) (result : option string) : page :=
  {| template := name; page_result := result |}.

(** How a call of a view ends: it returns a page, or an exception
    leaves it and reaches Flask. *)
Inductive outcome : Type :=
| Returned (p : page)
| Raised (e : exn).

(** Inside a view: go on with a value, return a page, or raise. *)
Inductive flow (A : Type) : Type :=
| Next (a : A)
| Return (p : page)
| Throw (e : exn).
Arguments Next {A} a.
Arguments Return {A} p.
Arguments Throw {A} e.

(** [GET /] *)
Definition index : outcome := Returned (render_template "index.html" None).

Definition fields : list string :=
  ["Nitrogen"; "Phosporus"; "Potassium"; "Temperature"; "Humidity"; "Ph"; "Rainfall"].

Definition crop_dict : list (Z * string) :=
  [(1, "Rice"); (2, "Maize"); (3, "Jute"); (4, "Cotton"); (5, "Coconut");
   (6, "Papaya"); (7, "Orange"); (8, "Apple"); (9, "Muskmelon");
   (10, "Watermelon"); (11, "Grapes"); (12, "Mango"); (13, "Banana");
   (14, "Pomegranate"); (15, "Lentil"); (16, "Blackgram"); (17, "Mungbean");
   (18, "Mothbeans"); (19, "Pigeonpeas"); (20, "Kidneybeans");
   (21, "Chickpea"); (22, "Coffee")].

Definition config_error : string :=
  "Server configuration error: model or scaler not loaded. "
  ++ "Ensure model.pkl, standscaler.pkl and minmaxscaler.pkl exist in the app folder.".

(** The loop over [fields]: [values] is the list built so far. *)
Fixpoint read_fields (form : multidict) (todo : list string)
    (values : list spec_float) : flow (list spec_float) :=
  match todo with
  | [] => Next values
  | field :: todo' =>
      match form_get form field with
      | None =>
          Return (render_template "index.html"
                    (Some ("Please provide a value for " ++ field ++ ".")))
      | Some raw =>
          if py_strip raw =? "" then
            Return (render_template "index.html"
                      (Some ("Please provide a value for " ++ field ++ ".")))
          else
            match py_float raw with
            | Ok val => read_fields form todo' (values ++ [val])
            | Raise e =>
                if is_ValueError e then
                  Return (render_template "index.html"
                            (Some ("Invalid numeric value for " ++ field
                                   ++ ": '" ++ raw ++ "'")))
                else Throw e
            end
      end
  end.

(** [label_encoder.inverse_transform([int(pred)])[0]] *)
Definition inverse_label (enc : encoder) (pred : pyval) : result pyval :=
  code <-? py_int pred ;;
  names <-? inverse_transform enc [code] ;;
  getitem0 names.

(** 1) the label encoder, when there is one *)
Definition tier_encoder (label_encoder : option encoder) (pred : pyval) : io pyval :=
  match label_encoder with
  | Some enc =>
      try_except
        (inverse_label enc pred)
        (fun e =>
           print ("[WARN] label_encoder inverse transform failed: " ++ exn_msg e) ;;
           io_ret PyNone)
  | None => io_ret PyNone
  end.

(** 2) a string output is taken as the name *)
Definition tier_text (pred crop_name : pyval) : pyval :=
  if is_None crop_name then
    if isinstance_str pred then pred else crop_name
  else crop_name.

(** 3) the numeric label looked up in [crop_dict] *)
Definition tier_table (pred crop_name : pyval) : pyval :=
  if is_None crop_name then
    match code <-? py_int pred ;; Ok (dict_get crop_dict code) with
    | Ok name => name
    | Raise _ => PyNone
    end
  else crop_name.

(** The value of [crop_name] when the result message is prepared. *)
Definition resolve_crop_name (label_encoder : option encoder) (pred : pyval)
  : io pyval :=
  crop_name <- tier_encoder label_encoder pred ;;
  io_ret (tier_table pred (tier_text pred crop_name)).

Definition result_message (crop_name pred : pyval) : string :=
  if py_bool crop_name then
    py_str crop_name ++ " is the best crop to be cultivated right there."
  else
    "Sorry, could not determine the best crop. Model output: " ++ py_str pred.

(** [POST /predict] *)
Definition predict (app : artifacts) (form : multidict) : io outcome :=
  match model app, sc app, ms app with
  | Some model, Some sc, Some ms =>
      match read_fields form fields [] with
      | Return p => io_ret (Returned p)
      | Throw e => io_ret (Raised e)
      | Next values =>
          let single_pred := [values] in
          match
            scaled_features <-? transform ms single_pred ;;
            transform sc scaled_features
          with
          | Raise e =>
              io_ret (Returned (render_template "index.html"
                        (Some ("Error while scaling features: " ++ exn_msg e))))
          | Ok final_features =>
              match clf_predict model final_features with
              | Raise e =>
                  io_ret (Returned (render_template "index.html"
                            (Some ("Error during model prediction: " ++ exn_msg e))))
              | Ok prediction =>
                  match getitem0 prediction with
                  | Raise e => io_ret (Raised e)
                  | Ok pred =>
                      crop_name <- resolve_crop_name (label_encoder app) pred ;;
                      io_ret (Returned (render_template "index.html"
                                (Some (result_message crop_name pred))))
                  end
              end
          end
      end
  | _, _, _ =>
      io_ret (Returned (render_template "index.html" (Some config_error)))
  end.

(* ================================================================== *)
(** ** Vocabulary of the properties *)

(** The page [predict] returns for a result text. *)
Definition rendered (text : string) : outcome :=
  Returned (render_template "index.html" (Some text)).

(** The field is not in the form, or holds only blanks. *)
Definition missing_or_blank (form : multidict) (field : string) : bool :=
  match form_get form field with
  | Some raw => py_strip raw =? ""
  | None => true
  end.

(** The number a field holds, when it is sent and [float] accepts it. *)
Definition field_number (form : multidict) (field : string) : option spec_float :=
  match form_get form field with
  | Some raw =>
      match py_float raw with
      | Ok val => Some val
      | Raise _ => None
      end
  | None => None
  end.

(** The fields [names] hold the numbers [values], in that order. *)
Definition numbers (form : multidict) (names : list string)
    (values : list spec_float) : Prop :=
  map (field_number form) names = map Some values.

(** The classifier and both scalers are loaded. *)
Definition available (app : artifacts) : Prop :=
  model app <> None /\ sc app <> None /\ ms app <> None.

(** The submission is valid and the pipeline runs through: all seven
    fields hold numbers, both transforms succeed, and [pred] is the
    first label the classifier gives for the transformed row. *)
Definition raw_output (app : artifacts) (form : multidict) (pred : pyval) : Prop :=
  exists clf std mm values scaled_features final_features rest,
    model app = Some clf /\ sc app = Some std /\ ms app = Some mm /\
    numbers form fields values /\
    transform mm [values] = Ok scaled_features /\
    transform std scaled_features = Ok final_features /\
    clf_predict clf final_features = Ok (pred :: rest).

(** Whenever the classifier's [predict] returns, its answer, an array
    of labels, is not empty. *)
Definition answers_a_label (app : artifacts) : Prop :=
  forall clf X prediction,
    model app = Some clf -> clf_predict clf X = Ok prediction -> prediction <> [].

(** The numbers in a list of optional numbers, when none is missing. *)
Fixpoint all_some {A : Type} (l : list (option A)) : option (list A) :=
  match l with
  | [] => Some []
  | Some a :: l' =>
      match all_some l' with
      | Some r => Some (a :: r)
      | None => None
      end
  | None :: _ => None
  end.

(** The file at [path] is there and [joblib.load] gives an object for
    it, not [None]. *)
Definition loadable {A : Type} (d : disk) (load : string -> result (option A))
    (path : string) : Prop :=
  path_exists d path = true /\ exists obj, load path = Ok (Some obj).

(** The file at [path] is there and holds a pickle of [None]. *)
Definition pickled_None {A : Type} (d : disk) (load : string -> result (option A))
    (path : string) : bool :=
  path_exists d path
  && match load path with
     | Ok None => true
     | _ => false
     end.

(** The file at [path] is not there, or [joblib.load] raises on it. *)
Definition unloadable {A : Type} (d : disk) (load : string -> result A)
    (path : string) : Prop :=
  path_exists d path = false \/ exists e, load path = Raise e.

(** The truncation toward zero of [(-1)^s * m * 2^e]. *)
Definition truncated (s : bool) (m : positive) (e : Z) : Z :=
  if (0 <=? e)%Z then cond_Zopp s (Zpos m * 2 ^ e)
  else Z.quot (cond_Zopp s (Zpos m)) (2 ^ (- e)).

(* ================================================================== *)
(** ** Sample artifacts and submissions *)

Module Sample.

(** A scaler that leaves its input as it is. *)
Definition identity_scaler : scaler := {| transform := fun X => Ok X |}.

(** A scaler fitted on another number of columns. *)
Definition misfit_scaler : scaler :=
  {| transform := fun _ =>
       Raise (mk_exn ValueError
                "X has 7 features, but MinMaxScaler is expecting 3 features as input.") |}.

(** A classifier that answers [label] for every row. *)
Definition constant_classifier (label : pyval) : classifier :=
  {| clf_predict := fun X => Ok (map (fun _ => label) X) |}.

(** An object whose [predict] gives an empty array. *)
Definition mute_classifier : classifier := {| clf_predict := fun _ => Ok [] |}.

(** A classifier that answers [label] for every row and, as
    scikit-learn's estimators do, refuses an input without rows. *)
Definition row_classifier (label : pyval) : classifier :=
  {| clf_predict := fun X =>
       match X with
       | [] =>
           Raise (mk_exn ValueError
                    "Found array with 0 sample(s) (shape=(0, 7)) while a minimum of 1 is required.")
       | _ :: _ => Ok (map (fun _ => label) X)
       end |}.

(** A label encoder fitted on [classes]: code [k] stands for the
    [k]-th class, any other code is an unseen label. *)
Definition encoder_of (classes : list string) : encoder :=
  {| inverse_transform := fun codes =>
       match filter (fun k => negb ((0 <=? k)%Z && (k <? Z.of_nat (List.length classes))%Z)) codes with
       | [] => Ok (map (fun k => PyStr (nth (Z.to_nat k) classes "")) codes)
       | k :: _ =>
           Raise (mk_exn ValueError
                    ("y contains previously unseen labels: [" ++ str_of_int k ++ "]"))
       end |}.

Definition app_of (label : pyval) (enc : option encoder) : artifacts :=
  {| model := Some (constant_classifier label);
     sc := Some identity_scaler;
     ms := Some identity_scaler;
     label_encoder := enc |}.

(** A submission with all seven fields filled in. *)
Definition form : multidict :=
  [("Nitrogen", "90"); ("Phosporus", "42"); ("Potassium", "43");
   ("Temperature", "20.87"); ("Humidity", "82.0"); ("Ph", "6.5");
   ("Rainfall", "202.93")].

(** [f] with [field] sent as [raw] instead: [get] reads the first
    value under a name. *)
Definition with_field (field raw : string) (f : multidict) : multidict :=
  (field, raw) :: f.

(** [f] without any value under [field]. *)
Definition without (field : string) (f : multidict) : multidict :=
  filter (fun kv => negb (fst kv =? field)) f.

(** 1.9 as a binary64 number. *)
Definition f1_9 : spec_float := S754_finite false 8556839292003942 (-52).

(** 7.9 as a binary64 number. *)
Definition f7_9 : spec_float := S754_finite false 8894609264056730 (-50).

(** The folder of the application where model.pkl holds a pickle of
    [None]. *)
Definition disk_with_None_model : disk :=
  {| path_exists := fun _ => true;
     load_classifier := fun _ => Ok None;
     load_scaler := fun _ => Ok (Some identity_scaler);
     load_encoder := fun _ => Ok (Some (encoder_of ["apple"; "banana"])) |}.

(** Four classes, the third with an empty name. *)
Definition fruits : encoder := encoder_of ["apple"; "banana"; ""; "kiwi"].

(** Nitrogen left blank. *)
Definition blank_nitrogen : multidict := with_field "Nitrogen" "  " form.

(** Nitrogen is not a number and Phosporus is not sent. *)
Definition abc_then_missing : multidict :=
  with_field "Nitrogen" "abc" (without "Phosporus" form).

(** Nitrogen is blank and Phosporus is not a number. *)
Definition blank_then_abc : multidict :=
  with_field "Nitrogen" "" (with_field "Phosporus" "abc" form).

(** Nitrogen sent as the text nan. *)
Definition nan_nitrogen : multidict := with_field "Nitrogen" "nan" form.

(** A folder that holds the files [present]; the classifier and the
    scalers unpickle, the label encoder file is damaged. *)
Definition disk_of (present : list string) : disk :=
  {| path_exists := fun p => existsb (String.eqb p) present;
     load_classifier := fun _ => Ok (Some (constant_classifier (PyInt 1)));
     load_scaler := fun _ => Ok (Some identity_scaler);
     load_encoder := fun _ =>
       Raise (mk_exn (OtherException "UnpicklingError") "invalid load key, 'x'.") |}.

(** The folder of the application with all four files in it. *)
Definition full_disk : disk :=
  disk_of ["/srv/app/model.pkl"; "/srv/app/standscaler.pkl";
           "/srv/app/minmaxscaler.pkl"; "/srv/app/label_encoder.pkl"].

(** The same folder without the MinMax scaler. *)
Definition disk_without_minmax : disk :=
  disk_of ["/srv/app/model.pkl"; "/srv/app/standscaler.pkl";
           "/srv/app/label_encoder.pkl"].

(** A classifier that raises. *)
Definition unfitted_classifier : classifier :=
  {| clf_predict := fun _ =>
       Raise (mk_exn (OtherException "NotFittedError")
                "This RandomForestClassifier instance is not fitted yet.") |}.

End Sample.

(* ================================================================== *)
(** * Properties *)

(** ** The built-ins *)

Lemma py_float_raises_ValueError (s : string) (e : exn) :
  py_float s = Raise e -> is_ValueError e = true.
Proof.
  unfold py_float.
  destruct (floatvalue _); intros H; inversion H; reflexivity.
Qed.

Lemma lstrip_by_nil (sp : ascii -> bool) (l : list ascii) :
  lstrip_by sp l = [] -> forallb sp l = true.
Proof.
  induction l as [|c t IH]; simpl; [reflexivity|].
  destruct (sp c) eqn:E; [assumption | discriminate].
Qed.

Lemma lstrip_by_all (sp : ascii -> bool) (l : list ascii) :
  forallb sp l = true -> lstrip_by sp l = [].
Proof.
  induction l as [|c t IH]; simpl; [reflexivity|].
  destruct (sp c); simpl; [assumption | discriminate].
Qed.

Lemma lstrip_by_incl (sp : ascii -> bool) (l : list ascii) :
  incl (lstrip_by sp l) l.
Proof.
  induction l as [|c t IH]; simpl; [apply incl_refl|].
  destruct (sp c); [apply incl_tl, IH | apply incl_refl].
Qed.

Lemma strip_by_incl (sp : ascii -> bool) (l : list ascii) :
  incl (strip_by sp l) l.
Proof.
  unfold strip_by. intros c H.
  apply in_rev in H. apply lstrip_by_incl in H.
  apply in_rev in H. apply lstrip_by_incl in H. exact H.
Qed.

(** A text [strip()] empties is made of blanks only. *)
Lemma strip_by_nil (sp : ascii -> bool) (l : list ascii) :
  strip_by sp l = [] -> forallb sp l = true.
Proof.
  unfold strip_by. intros H.
  assert (H1 : lstrip_by sp (rev (lstrip_by sp l)) = []).
  { rewrite <- (rev_involutive (lstrip_by sp _)), H. reflexivity. }
  apply lstrip_by_nil in H1.
  assert (H2 : forallb sp (lstrip_by sp l) = true).
  { rewrite forallb_forall in *. intros c Hc. apply H1, in_rev.
    rewrite rev_involutive. exact Hc. }
  clear H H1. induction l as [|c t IH]; simpl in *; [reflexivity|].
  destruct (sp c) eqn:E; simpl.
  - apply IH, H2.
  - simpl in H2. rewrite E in H2. discriminate.
Qed.

Lemma string_of_list_ascii_nil (l : list ascii) :
  string_of_list_ascii l = "" -> l = [].
Proof. destruct l; [reflexivity | discriminate]. Qed.

(** No blank starts a float literal. *)
Lemma floatvalue_blank (c : ascii) (t : list ascii) :
  is_space c = true -> floatvalue (c :: t) = None.
Proof.
  destruct c as [[] [] [] [] [] [] [] []]; intros H;
    try discriminate H; reflexivity.
Qed.

(** [float] accepts no text that [strip()] empties: the blank test of
    the handler never hides a number. *)
Lemma py_float_not_blank (s : string) (v : spec_float) :
  py_float s = Ok v -> (py_strip s =? "") = false.
Proof.
  intros H. destruct (py_strip s =? "") eqn:E; [|reflexivity].
  apply String.eqb_eq in E. unfold py_strip in E.
  apply string_of_list_ascii_nil, strip_by_nil in E.
  unfold py_float in H.
  assert (A : forallb is_space (strip_by is_literal_space (list_ascii_of_string s)) = true).
  { rewrite forallb_forall in *. intros c Hc. apply E, (strip_by_incl _ _ _ Hc). }
  destruct (strip_by is_literal_space (list_ascii_of_string s)) as [|c t].
  - discriminate H.
  - simpl in A. apply andb_prop in A. destruct A as [A _].
    rewrite (floatvalue_blank c t A) in H. discriminate H.
Qed.

(** [int] of a finite float is its truncation toward zero. *)
Lemma py_int_of_float_truncates (s : bool) (m : positive) (e : Z) :
  py_int_of_float (S754_finite s m e) = Ok (truncated s m e).
Proof.
  unfold py_int_of_float, truncated. f_equal.
  destruct (Z.leb_spec 0 e) as [He|He].
  - rewrite Z.shiftl_mul_pow2 by assumption. reflexivity.
  - rewrite Z.shiftl_div_pow2 by lia.
    assert (Hd : (0 < 2 ^ (- e))%Z) by (apply Z.pow_pos_nonneg; lia).
    destruct s; simpl cond_Zopp.
    + change (Z.neg m) with (- Z.pos m)%Z.
      rewrite Z.quot_opp_l by lia.
      rewrite Z.quot_div_nonneg by lia. reflexivity.
    + rewrite Z.quot_div_nonneg by lia. reflexivity.
Qed.

(** The truncation lies between zero and the number, less than one
    away from it: with [d = 2^(-e)] for a negative [e],
    [|k| * d <= m < (|k| + 1) * d], and [k] has the sign of the number. *)
Lemma truncated_toward_zero (s : bool) (m : positive) (e : Z) :
  (e < 0)%Z ->
  let k := truncated s m e in
  (Z.abs k * 2 ^ (- e) <= Zpos m < (Z.abs k + 1) * 2 ^ (- e))%Z
  /\ (if s then k <= 0 else 0 <= k)%Z.
Proof.
  intros He k. subst k. unfold truncated.
  destruct (Z.leb_spec 0 e) as [H|_]; [lia|].
  assert (Hd : (0 < 2 ^ (- e))%Z) by (apply Z.pow_pos_nonneg; lia).
  assert (Hq : (0 <= Zpos m / 2 ^ (- e))%Z) by (apply Z.div_pos; lia).
  assert (Hm := Z.div_mod (Zpos m) (2 ^ (- e)) ltac:(lia)).
  assert (Hr := Z.mod_pos_bound (Zpos m) (2 ^ (- e)) Hd).
  destruct s; simpl cond_Zopp.
  - change (Z.neg m) with (- Z.pos m)%Z.
    rewrite Z.quot_opp_l, Z.quot_div_nonneg by lia.
    rewrite Z.abs_opp, Z.abs_eq by lia. split; [nia | lia].
  - rewrite Z.quot_div_nonneg by lia.
    rewrite Z.abs_eq by lia. split; [nia | lia].
Qed.

(** ** The static table *)

Lemma dict_get_cases (d : list (Z * string)) (k : Z) :
  dict_get d k = PyNone \/ exists name, dict_get d k = PyStr name /\ In (k, name) d.
Proof.
  induction d as [|[k' v] d IH]; simpl; [left; reflexivity|].
  destruct (Z.eqb_spec k' k) as [->|_].
  - right. exists v. split; [reflexivity | left; reflexivity].
  - destruct IH as [IH|[name [IH Hin]]]; [left; exact IH|].
    right. exists name. split; [exact IH | right; exact Hin].
Qed.

(** The table has 22 entries, keyed 1 to 22. *)
Lemma crop_dict_keys : map fst crop_dict = map Z.of_nat (seq 1 22).
Proof. reflexivity. Qed.

(** No entry of the table is the empty name. *)
Lemma crop_dict_names_truthy (k : Z) (name : string) :
  dict_get crop_dict k = PyStr name -> py_bool (PyStr name) = true.
Proof.
  intros H. destruct (dict_get_cases crop_dict k) as [E|[n [E Hin]]].
  - rewrite E in H. discriminate.
  - rewrite E in H. inversion H; subst n. clear - Hin.
    unfold crop_dict in Hin. simpl in Hin.
    repeat (destruct Hin as [Hin|Hin]; [inversion Hin; reflexivity|]).
    contradiction.
Qed.

(** The lookup finds every entry of the table: no key stands twice. *)
Lemma crop_dict_lookup (k : Z) (name : string) :
  In (k, name) crop_dict -> dict_get crop_dict k = PyStr name.
Proof.
  unfold crop_dict. simpl In. intros H.
  repeat (destruct H as [H|H]; [inversion H; reflexivity|]).
  contradiction.
Qed.

(** A key outside 1..22 is not in the table. *)
Lemma crop_dict_outside (k : Z) :
  (k < 1 \/ 22 < k)%Z -> dict_get crop_dict k = PyNone.
Proof.
  intros H. unfold crop_dict, dict_get.
  repeat match goal with
         | |- context [(?a =? k)%Z] => destruct (Z.eqb_spec a k); [lia|]
         end.
  reflexivity.
Qed.

(** ** Reading the form *)

Lemma numbers_cons (form : multidict) (f : string) (todo : list string)
    (values : list spec_float) :
  numbers form (f :: todo) values ->
  exists v values', values = v :: values'
    /\ field_number form f = Some v /\ numbers form todo values'.
Proof.
  unfold numbers. destruct values as [|v values']; simpl; intros H;
    [discriminate|].
  inversion H. exists v, values'. repeat split; assumption.
Qed.

Lemma field_number_raw (form : multidict) (f : string) (v : spec_float) :
  field_number form f = Some v ->
  exists raw, form_get form f = Some raw /\ py_float raw = Ok v.
Proof.
  unfold field_number. destruct (form_get form f) as [raw|]; [|discriminate].
  destruct (py_float raw) as [w|e] eqn:E; [|discriminate].
  intros H; inversion H; subst. exists raw. split; [reflexivity | exact E].
Qed.

(** A field that holds a number is neither missing nor blank. *)
Lemma field_number_present (form : multidict) (f : string) (v : spec_float) :
  field_number form f = Some v -> missing_or_blank form f = false.
Proof.
  intros H. apply field_number_raw in H. destruct H as [raw [Hg Hf]].
  unfold missing_or_blank. rewrite Hg. exact (py_float_not_blank _ _ Hf).
Qed.

(** One turn of the loop over a field that holds a number. *)
Lemma read_fields_step (form : multidict) (f : string) (todo : list string)
    (acc : list spec_float) (v : spec_float) :
  field_number form f = Some v ->
  read_fields form (f :: todo) acc = read_fields form todo (acc ++ [v]).
Proof.
  intros H. apply field_number_raw in H. destruct H as [raw [Hg Hf]].
  simpl. rewrite Hg, (py_float_not_blank _ _ Hf), Hf. reflexivity.
Qed.

(** The loop runs through the fields that hold numbers and goes on
    with the rest. *)
Lemma read_fields_app (form : multidict) (before rest : list string)
    (values : list spec_float) :
  numbers form before values ->
  forall acc,
    read_fields form (before ++ rest) acc = read_fields form rest (acc ++ values).
Proof.
  revert values. induction before as [|f before IH]; intros values H acc.
  - destruct values; [|discriminate H]. simpl. rewrite app_nil_r. reflexivity.
  - apply numbers_cons in H. destruct H as [v [values' [-> [Hv H]]]].
    change ((f :: before) ++ rest)%list with (f :: (before ++ rest))%list.
    rewrite (read_fields_step _ _ _ _ _ Hv), (IH _ H).
    rewrite <- app_assoc. reflexivity.
Qed.

Lemma read_fields_numbers (form : multidict) (todo : list string)
    (values : list spec_float) :
  numbers form todo values ->
  read_fields form todo [] = Next values.
Proof.
  intros H. rewrite <- (app_nil_r todo).
  rewrite (read_fields_app _ _ [] _ H). reflexivity.
Qed.

(** The loop ends with the values or with a page; no exception
    leaves it. *)
Lemma read_fields_total (form : multidict) (todo : list string) :
  forall acc,
    (exists values, read_fields form todo acc = Next values)
    \/ (exists text,
          read_fields form todo acc
          = Return (render_template "index.html" (Some text))).
Proof.
  induction todo as [|f todo IH]; intros acc; simpl.
  - left. eexists. reflexivity.
  - destruct (form_get form f) as [raw|]; [|right; eexists; reflexivity].
    destruct (py_strip raw =? ""); [right; eexists; reflexivity|].
    destruct (py_float raw) as [v|e] eqn:E; [apply IH|].
    rewrite (py_float_raises_ValueError _ _ E). right. eexists. reflexivity.
Qed.

(** The loop reads the form only under the names it is given. *)
Lemma read_fields_ext (form1 form2 : multidict) (todo : list string) :
  (forall f, In f todo -> form_get form1 f = form_get form2 f) ->
  forall acc, read_fields form1 todo acc = read_fields form2 todo acc.
Proof.
  induction todo as [|f todo IH]; intros H acc; simpl; [reflexivity|].
  rewrite <- (H f (or_introl eq_refl)).
  destruct (form_get form1 f) as [raw|]; [|reflexivity].
  destruct (py_strip raw =? ""); [reflexivity|].
  destruct (py_float raw); [|reflexivity].
  apply IH. intros g Hg. apply H. right. exact Hg.
Qed.

(** ** Printing *)

Lemma io_bind_ret {A B : Type} (m : io A) (f : A -> B) :
  io_bind m (fun a => io_ret (f a)) = (f (fst m), snd m).
Proof.
  destruct m as [a out]. unfold io_bind, io_ret. simpl.
  rewrite app_nil_r. reflexivity.
Qed.

(** ** The handler after a valid submission *)

(** Once the classifier has answered, the page is the result message
    for the resolved name, and the lines printed are the resolver's. *)
Lemma predict_raw_output (app : artifacts) (form : multidict) (pred : pyval) :
  raw_output app form pred ->
  predict app form
  = (rendered (result_message (fst (resolve_crop_name (label_encoder app) pred)) pred),
     snd (resolve_crop_name (label_encoder app) pred)).
Proof.
  intros (clf & std & mm & values & scaled & final & rest
          & Hm & Hs & Hmm & Hn & Ht1 & Ht2 & Hp).
  unfold predict. rewrite Hm, Hs, Hmm, (read_fields_numbers _ _ _ Hn).
  cbv zeta. rewrite Ht1. unfold res_bind at 1. rewrite Ht2, Hp.
  unfold getitem0.
  exact (io_bind_ret _ (fun crop_name => rendered (result_message crop_name pred))).
Qed.

(** Without a label encoder the first tier does nothing and prints
    nothing. *)
Lemma resolve_without_encoder (pred : pyval) :
  resolve_crop_name None pred = (tier_table pred (tier_text pred PyNone), []).
Proof. reflexivity. Qed.

Lemma numbers_all_some (form : multidict) (names : list string)
    (values : list spec_float) :
  all_some (map (field_number form) names) = Some values ->
  numbers form names values.
Proof.
  unfold numbers. revert values.
  induction names as [|f names IH]; simpl; intros values H.
  - inversion H. reflexivity.
  - destruct (field_number form f) as [v|]; [|discriminate].
    destruct (all_some _) as [r|]; [|discriminate].
    inversion H. simpl. rewrite (IH r eq_refl). reflexivity.
Qed.

Lemma numbers_ext (form1 form2 : multidict) (names : list string)
    (values : list spec_float) :
  (forall f, In f names -> form_get form1 f = form_get form2 f) ->
  numbers form2 names values -> numbers form1 names values.
Proof.
  unfold numbers. intros H <-. apply map_ext_in.
  intros f Hf. unfold field_number. rewrite (H f Hf). reflexivity.
Qed.

(** The first missing or blank field comes after the fields that hold
    numbers. *)
Lemma find_after_numbers (form : multidict) (before rest : list string)
    (values : list spec_float) :
  numbers form before values ->
  find (missing_or_blank form) (before ++ rest) = find (missing_or_blank form) rest.
Proof.
  revert values. induction before as [|f before IH]; intros values H;
    [reflexivity|].
  apply numbers_cons in H. destruct H as [v [values' [_ [Hv H]]]].
  simpl. rewrite (field_number_present _ _ _ Hv). exact (IH _ H).
Qed.

Lemma available_loaded (app : artifacts) :
  available app ->
  exists clf std mm, model app = Some clf /\ sc app = Some std /\ ms app = Some mm.
Proof.
  intros (Hm & Hs & Hmm).
  destruct (model app) as [clf|]; [|contradiction].
  destruct (sc app) as [std|]; [|contradiction].
  destruct (ms app) as [mm|]; [|contradiction].
  exists clf, std, mm. repeat split.
Qed.

(** With the artifacts loaded, a page the loop returns is the page of
    the handler, and nothing is printed. *)
Lemma predict_page_of_loop (app : artifacts) (form : multidict) (p : page) :
  available app ->
  read_fields form fields [] = Return p ->
  predict app form = (Returned p, []).
Proof.
  intros Ha H. destruct (available_loaded _ Ha) as (clf & std & mm & Hm & Hs & Hmm).
  unfold predict. rewrite Hm, Hs, Hmm, H. reflexivity.
Qed.

(** ** Start-up *)

Lemma safe_load_missing {A : Type} (exists_ : string -> bool)
    (loader : string -> result (option A)) (path : string) :
  exists_ path = false ->
  safe_load exists_ loader path = (None, ["[WARN] File not found: " ++ path]).
Proof. intros H. unfold safe_load. rewrite H. reflexivity. Qed.

Lemma safe_load_failing {A : Type} (exists_ : string -> bool)
    (loader : string -> result (option A)) (path : string) (e : exn) :
  exists_ path = true -> loader path = Raise e ->
  safe_load exists_ loader path
  = (None, ["[ERROR] Failed to load " ++ py_repr path ++ ": " ++ exn_msg e]).
Proof. intros H1 H2. unfold safe_load. rewrite H1, H2. reflexivity. Qed.

Lemma safe_load_loaded {A : Type} (exists_ : string -> bool)
    (loader : string -> result (option A)) (path : string) (obj : option A) :
  exists_ path = true -> loader path = Ok obj ->
  safe_load exists_ loader path = (obj, []).
Proof. intros H1 H2. unfold safe_load. rewrite H1, H2. reflexivity. Qed.

(** The module variables are what the four loads gave. *)
Lemma load_artifacts_slots (BASE_DIR : string) (d : disk) :
  let app := fst (load_artifacts BASE_DIR d) in
  model app
  = fst (safe_load (path_exists d) (load_classifier d) (path_join BASE_DIR "model.pkl"))
  /\ sc app
     = fst (safe_load (path_exists d) (load_scaler d) (path_join BASE_DIR "standscaler.pkl"))
  /\ ms app
     = fst (safe_load (path_exists d) (load_scaler d) (path_join BASE_DIR "minmaxscaler.pkl"))
  /\ label_encoder app
     = fst (safe_load (path_exists d) (load_encoder d)
              (path_join BASE_DIR "label_encoder.pkl")).
Proof.
  unfold load_artifacts.
  destruct (safe_load _ (load_classifier d) _) as [m o1].
  destruct (safe_load _ (load_scaler d) (path_join BASE_DIR "standscaler.pkl")) as [s1 o2].
  destruct (safe_load _ (load_scaler d) (path_join BASE_DIR "minmaxscaler.pkl")) as [s2 o3].
  destruct (safe_load _ (load_encoder d) _) as [en o4].
  unfold io_bind, io_ret.
  destruct m, s1, s2, en; repeat split.
Qed.

(** A classifier that is not on disk leaves every request with the
    configuration error. *)
Lemma predict_after_missing_model (BASE_DIR : string) (d : disk) (form : multidict) :
  path_exists d (path_join BASE_DIR "model.pkl") = false ->
  predict (fst (load_artifacts BASE_DIR d)) form = (rendered config_error, []).
Proof.
  intros H. destruct (load_artifacts_slots BASE_DIR d) as [Hm _].
  unfold predict. rewrite Hm, (safe_load_missing _ _ _ H). reflexivity.
Qed.

(* ================================================================== *)
(** ** The claims *)

(** C1. When all seven fields hold numbers, the two scalers and the
    classifier are loaded and do their work, no label encoder is loaded,
    and the classifier's output is a number whose integer value [k]
    stands in the static table with the name [name], the handler
    returns exactly
    [<name> is the best crop to be cultivated right there.] (Rice for
    1, Orange for 7, Coffee for 22), and prints nothing. *)
Theorem C1_table_entry_is_recommended (app : artifacts) (form : multidict)
    (pred : pyval) (k : Z) (name : string) :
  raw_output app form pred ->
  label_encoder app = None ->
  isinstance_str pred = false ->
  py_int pred = Ok k ->
  In (k, name) crop_dict ->
  predict app form
  = (rendered (name ++ " is the best crop to be cultivated right there."), []).
Proof.
  intros Hraw Henc Hstr Hint Hin.
  pose proof (crop_dict_lookup _ _ Hin) as Hget.
  rewrite (predict_raw_output _ _ _ Hraw), Henc, resolve_without_encoder.
  cbn [fst snd]. unfold tier_table, tier_text.
  cbn [is_None]. rewrite Hstr. cbn [is_None].
  rewrite Hint. cbn [res_bind]. rewrite Hget.
  unfold result_message. rewrite (crop_dict_names_truthy _ _ Hget).
  reflexivity.
Qed.

(** C3. If the classifier or either scaler is absent, every
    [POST /predict] gets the fixed configuration-error message, whatever
    the form holds: no field is looked at, nothing is printed. *)
Theorem C3_configuration_error (app : artifacts) :
  model app = None \/ sc app = None \/ ms app = None ->
  forall form : multidict,
    predict app form
    = (rendered
         ("Server configuration error: model or scaler not loaded. "
          ++ "Ensure model.pkl, standscaler.pkl and minmaxscaler.pkl exist in the app folder."),
       []).
Proof.
  intros H form. unfold predict.
  destruct H as [H|[H|H]]; rewrite H.
  - reflexivity.
  - destruct (model app); reflexivity.
  - destruct (model app); [destruct (sc app)|]; reflexivity.
Qed.

(** C6. For a valid submission with no label encoder loaded, whose
    classifier output is not a string and is not a key of the static
    table after conversion to an integer (the conversion fails, or the
    integer is not a key), the handler returns
    [Sorry, could not determine the best crop. Model output: <raw>]. *)
Theorem C6_unresolved_output (app : artifacts) (form : multidict) (pred : pyval) :
  raw_output app form pred ->
  label_encoder app = None ->
  isinstance_str pred = false ->
  (forall k, py_int pred = Ok k -> dict_get crop_dict k = PyNone) ->
  predict app form
  = (rendered ("Sorry, could not determine the best crop. Model output: "
               ++ py_str pred), []).
Proof.
  intros Hraw Henc Hstr Htab.
  rewrite (predict_raw_output _ _ _ Hraw), Henc, resolve_without_encoder.
  cbn [fst snd]. unfold tier_table, tier_text.
  cbn [is_None]. rewrite Hstr. cbn [is_None].
  destruct (py_int pred) as [k|e]; cbn [res_bind].
  - rewrite (Htab k eq_refl). reflexivity.
  - reflexivity.
Qed.

(** C4 (amended). With the artifacts loaded, if a field is missing or
    blank and every field before it holds a number, then it is the
    first missing or blank field, the handler returns exactly
    [Please provide a value for <field>.] (the text ends with a full
    stop), and no later field is looked at: any form that agrees with
    this one up to that field gets the same answer. *)
Theorem C4_first_missing_field (app : artifacts) (form : multidict)
    (before after : list string) (field : string) (values : list spec_float) :
  available app ->
  fields = (before ++ field :: after)%list ->
  numbers form before values ->
  missing_or_blank form field = true ->
  find (missing_or_blank form) fields = Some field
  /\ predict app form
     = (rendered ("Please provide a value for " ++ field ++ "."), [])
  /\ forall form' : multidict,
       (forall f, In f (before ++ [field]) -> form_get form' f = form_get form f) ->
       predict app form' = predict app form.
Proof.
  intros Ha Hsplit Hnum Hblank.
  assert (Hloop : forall g : multidict,
             (forall f, In f (before ++ [field]) -> form_get g f = form_get form f) ->
             read_fields g fields []
             = Return (render_template "index.html"
                         (Some ("Please provide a value for " ++ field ++ ".")))).
  { intros g Hg. rewrite Hsplit.
    assert (Hn : numbers g before values).
    { apply (numbers_ext g form); [|exact Hnum].
      intros f Hf. apply Hg, in_or_app. left. exact Hf. }
    rewrite (read_fields_app _ _ _ _ Hn). simpl.
    assert (Hb : missing_or_blank g field = true).
    { unfold missing_or_blank in *. rewrite Hg; [exact Hblank|].
      apply in_or_app. right. left. reflexivity. }
    unfold missing_or_blank in Hb.
    destruct (form_get g field) as [raw|]; [rewrite Hb|]; reflexivity. }
  split; [|split].
  - rewrite Hsplit, (find_after_numbers _ _ _ _ Hnum). simpl.
    rewrite Hblank. reflexivity.
  - apply (predict_page_of_loop _ _ _ Ha), Hloop. reflexivity.
  - intros form' Hagree.
    rewrite (predict_page_of_loop _ _ _ Ha (Hloop form' Hagree)).
    rewrite (predict_page_of_loop _ _ _ Ha (Hloop form (fun _ _ => eq_refl))).
    reflexivity.
Qed.

(** C5 (amended). With the artifacts loaded, if a field is sent, is not
    blank and [float] rejects its text, and every field before it holds
    a number, the handler returns
    [Invalid numeric value for <field>: '<raw text>']. *)
Theorem C5_first_invalid_number (app : artifacts) (form : multidict)
    (before after : list string) (field raw : string)
    (values : list spec_float) (e : exn) :
  available app ->
  fields = (before ++ field :: after)%list ->
  numbers form before values ->
  form_get form field = Some raw ->
  (py_strip raw =? "") = false ->
  py_float raw = Raise e ->
  predict app form
  = (rendered ("Invalid numeric value for " ++ field ++ ": '" ++ raw ++ "'"), []).
Proof.
  intros Ha Hsplit Hnum Hget Hblank Hfloat.
  apply (predict_page_of_loop _ _ _ Ha).
  rewrite Hsplit, (read_fields_app _ _ _ _ Hnum). simpl.
  rewrite Hget, Hblank, Hfloat, (py_float_raises_ValueError _ _ Hfloat).
  reflexivity.
Qed.

(** C7 (amended). When the classifier's [predict], whenever it
    returns, answers an array with at least one label (scikit-learn's
    [predict] answers a label for each row), every request ends in a
    rendered page with a result text: a missing
    artifact, a bad field, a failing transform, a failing classifier
    and a failing label encoder all end in a message, and no exception
    leaves the handler. *)
Theorem C7_always_a_page (app : artifacts) (form : multidict) :
  answers_a_label app ->
  exists (text : string) (printed : list string),
    predict app form = (rendered text, printed).
Proof.
  intros Hclf. unfold predict.
  destruct (model app) as [clf|] eqn:Hm; [|eexists; eexists; reflexivity].
  destruct (sc app) as [std|]; [|eexists; eexists; reflexivity].
  destruct (ms app) as [mm|]; [|eexists; eexists; reflexivity].
  destruct (read_fields_total form fields []) as [[values ->]|[text ->]];
    [|eexists; eexists; reflexivity].
  cbv zeta.
  destruct (transform mm [values]) as [scaled|e]; cbn [res_bind];
    [|eexists; eexists; reflexivity].
  destruct (transform std scaled) as [final|e];
    [|eexists; eexists; reflexivity].
  destruct (clf_predict clf final) as [prediction|e] eqn:E3;
    [|eexists; eexists; reflexivity].
  destruct prediction as [|pred rest];
    [contradiction (Hclf clf final [] Hm E3); reflexivity|].
  cbn [getitem0].
  rewrite (io_bind_ret _ (fun crop_name => rendered (result_message crop_name pred))).
  eexists; eexists; reflexivity.
Qed.

(** C8. With the artifacts fixed, the answer of the handler (page and
    printed lines) is a function of the values sent under the seven
    field names: two forms that agree on them get identical answers. *)
Theorem C8_same_fields_same_answer (app : artifacts) (form1 form2 : multidict) :
  (forall f, In f fields -> form_get form1 f = form_get form2 f) ->
  predict app form1 = predict app form2.
Proof.
  intros H. unfold predict.
  rewrite (read_fields_ext form1 form2 fields H []). reflexivity.
Qed.

(** ** Label resolution *)

Lemma resolve_encoder_named (enc : encoder) (pred name : pyval) :
  inverse_label enc pred = Ok name -> is_None name = false ->
  resolve_crop_name (Some enc) pred = (name, []).
Proof.
  intros H Hn. unfold resolve_crop_name, tier_encoder. rewrite H.
  destruct name; [discriminate Hn | reflexivity..].
Qed.

Lemma resolve_encoder_failed (enc : encoder) (pred : pyval) (e : exn) :
  inverse_label enc pred = Raise e ->
  resolve_crop_name (Some enc) pred
  = (fst (resolve_crop_name None pred),
     ["[WARN] label_encoder inverse transform failed: " ++ exn_msg e]).
Proof.
  intros H. unfold resolve_crop_name, tier_encoder. rewrite H. reflexivity.
Qed.

Lemma inverse_label_int_failed (enc : encoder) (pred : pyval) (e : exn) :
  py_int pred = Raise e -> inverse_label enc pred = Raise e.
Proof. intros H. unfold inverse_label. rewrite H. reflexivity. Qed.

Lemma inverse_label_first (enc : encoder) (pred : pyval) (k : Z)
    (name : pyval) (rest : list pyval) :
  py_int pred = Ok k -> inverse_transform enc [k] = Ok (name :: rest) ->
  inverse_label enc pred = Ok name.
Proof.
  intros Hk Hn. unfold inverse_label. rewrite Hk. cbn [res_bind].
  rewrite Hn. reflexivity.
Qed.

(** C2. Label resolution is a chain of three tiers, the first to give a
    name wins.  (a) A loaded encoder is asked first, and a name it gives
    is the crop name, nothing printed - also when the static table has
    an entry for the same code; when it raises, one warning line is
    printed, the name is the one the later tiers give, and the request
    still ends in its result page; when it gives [None], the later
    tiers decide in silence.  (b) With no name yet, a string output is
    the name.  (c) With no name yet, the output is converted to an
    integer and looked up in the static table; a failing conversion
    leaves the name unresolved. *)
Theorem C2_tiers_in_order (enc : encoder) (pred : pyval) :
  (forall name, inverse_label enc pred = Ok name -> is_None name = false ->
     resolve_crop_name (Some enc) pred = (name, []))
  /\ (forall k name rest entry,
        py_int pred = Ok k -> inverse_transform enc [k] = Ok (name :: rest) ->
        is_None name = false -> dict_get crop_dict k = PyStr entry ->
        resolve_crop_name (Some enc) pred = (name, []))
  /\ (forall e, inverse_label enc pred = Raise e ->
        resolve_crop_name (Some enc) pred
        = (fst (resolve_crop_name None pred),
           ["[WARN] label_encoder inverse transform failed: " ++ exn_msg e]))
  /\ (forall app form e,
        raw_output app form pred -> label_encoder app = Some enc ->
        inverse_label enc pred = Raise e ->
        predict app form
        = (rendered (result_message (fst (resolve_crop_name None pred)) pred),
           ["[WARN] label_encoder inverse transform failed: " ++ exn_msg e]))
  /\ (inverse_label enc pred = Ok PyNone ->
        resolve_crop_name (Some enc) pred = resolve_crop_name None pred)
  /\ (forall s, pred = PyStr s -> resolve_crop_name None pred = (PyStr s, []))
  /\ (isinstance_str pred = false ->
        resolve_crop_name None pred
        = (match py_int pred with
           | Ok k => dict_get crop_dict k
           | Raise _ => PyNone
           end, [])).
Proof.
  repeat split.
  - apply resolve_encoder_named.
  - intros k name rest entry Hk Hn Hnone _.
    apply resolve_encoder_named; [|exact Hnone].
    exact (inverse_label_first _ _ _ _ _ Hk Hn).
  - apply resolve_encoder_failed.
  - intros app form e Hraw Henc He.
    rewrite (predict_raw_output _ _ _ Hraw), Henc.
    rewrite (resolve_encoder_failed _ _ _ He). reflexivity.
  - intros H. unfold resolve_crop_name, tier_encoder. rewrite H. reflexivity.
  - intros s ->. reflexivity.
  - intros Hs. rewrite resolve_without_encoder. unfold tier_table, tier_text.
    cbn [is_None]. rewrite Hs. cbn [is_None].
    destruct (py_int pred); reflexivity.
Qed.

(** C9. The success message needs a true crop name, not just one that
    is not [None]: when a tier gives the empty string as the name - the
    encoder answers with it, or the raw prediction is the empty string,
    which the textual tier takes - the handler returns
    [Sorry, could not determine the best crop. Model output: <raw>]. *)
Theorem C9_empty_name_is_no_name (app : artifacts) (form : multidict) (pred : pyval) :
  raw_output app form pred ->
  (exists enc k rest,
      label_encoder app = Some enc /\ py_int pred = Ok k
      /\ inverse_transform enc [k] = Ok (PyStr "" :: rest))
  \/ pred = PyStr "" ->
  fst (predict app form)
  = rendered ("Sorry, could not determine the best crop. Model output: "
              ++ py_str pred).
Proof.
  intros Hraw H. rewrite (predict_raw_output _ _ _ Hraw). cbn [fst].
  destruct H as [(enc & k & rest & Henc & Hk & Hn)| ->].
  - rewrite Henc.
    rewrite (resolve_encoder_named enc pred (PyStr ""));
      [reflexivity | exact (inverse_label_first _ _ _ _ _ Hk Hn) | reflexivity].
  - destruct (label_encoder app) as [enc|]; [|reflexivity].
    assert (He : exists e, py_int (PyStr "") = Raise e) by (eexists; reflexivity).
    destruct He as [e He].
    rewrite (resolve_encoder_failed _ _ _ (inverse_label_int_failed enc _ _ He)).
    reflexivity.
Qed.

(** C10. Both the encoder tier and the table tier look the prediction
    up under [int(pred)], which truncates toward zero: for a finite
    float prediction the conversion gives the truncated value [k]; with
    no encoder the name is the one that stands in the table under [k]
    (Rice for 1.9, Orange for 7.9), and there is no name when [k] is
    not between 1 and 22; a loaded encoder is asked about [k] and a
    name it gives for [k] is the crop name. A prediction [int] rejects
    never reaches the encoder: the warning is printed and the later
    tiers decide, whatever the encoder is. *)
Theorem C10_lookup_under_truncated_code (s : bool) (m : positive) (e : Z)
    (text : string) (other : pyval) :
  py_int (PyFloat (S754_finite s m e) text) = Ok (truncated s m e)
  /\ (forall name,
        In (truncated s m e, name) crop_dict ->
        resolve_crop_name None (PyFloat (S754_finite s m e) text) = (PyStr name, []))
  /\ ((truncated s m e < 1 \/ 22 < truncated s m e)%Z ->
      resolve_crop_name None (PyFloat (S754_finite s m e) text) = (PyNone, []))
  /\ (forall enc,
        inverse_label enc (PyFloat (S754_finite s m e) text)
        = (names <-? inverse_transform enc [truncated s m e] ;; getitem0 names))
  /\ (forall enc name rest,
        inverse_transform enc [truncated s m e] = Ok (name :: rest) ->
        is_None name = false ->
        resolve_crop_name (Some enc) (PyFloat (S754_finite s m e) text) = (name, []))
  /\ (forall enc err,
        py_int other = Raise err ->
        resolve_crop_name (Some enc) other
        = (fst (resolve_crop_name None other),
           ["[WARN] label_encoder inverse transform failed: " ++ exn_msg err])).
Proof.
  assert (Hk : py_int (PyFloat (S754_finite s m e) text) = Ok (truncated s m e))
    by apply py_int_of_float_truncates.
  assert (Htab : resolve_crop_name None (PyFloat (S754_finite s m e) text)
                 = (dict_get crop_dict (truncated s m e), [])).
  { rewrite resolve_without_encoder. unfold tier_table, tier_text.
    cbn [is_None isinstance_str]. rewrite Hk. reflexivity. }
  repeat split.
  - exact Hk.
  - intros name Hin. rewrite Htab, (crop_dict_lookup _ _ Hin). reflexivity.
  - intros Hout. rewrite Htab, (crop_dict_outside _ Hout). reflexivity.
  - intros enc. unfold inverse_label. rewrite Hk. reflexivity.
  - intros enc name rest Hn Hnone.
    apply resolve_encoder_named; [|exact Hnone].
    exact (inverse_label_first _ _ _ _ _ Hk Hn).
  - intros enc err Herr.
    exact (resolve_encoder_failed _ _ _ (inverse_label_int_failed enc _ _ Herr)).
Qed.

(* ================================================================== *)
(** ** The samples *)

Lemma sample_available (label : pyval) (enc : option encoder) :
  available (Sample.app_of label enc).
Proof. repeat split; discriminate. Qed.

Lemma row_classifier_answers_a_label (label : pyval) (std mm : option scaler)
    (enc : option encoder) :
  answers_a_label {| model := Some (Sample.row_classifier label);
                     sc := std; ms := mm; label_encoder := enc |}.
Proof.
  intros clf X prediction H1 H2. cbn [model] in H1. inversion H1; subst clf.
  destruct X as [|row X]; cbn [Sample.row_classifier clf_predict] in H2;
    [discriminate H2|].
  inversion H2. discriminate.
Qed.

(** The sample submission is valid and the sample classifier answers
    its label. *)
Lemma sample_raw_output (label : pyval) (enc : option encoder) :
  raw_output (Sample.app_of label enc) Sample.form label.
Proof.
  destruct (all_some (map (field_number Sample.form) fields)) as [values|] eqn:E;
    [|vm_compute in E; discriminate E].
  exists (Sample.constant_classifier label), Sample.identity_scaler,
    Sample.identity_scaler, values, [values], [values], [].
  repeat split. exact (numbers_all_some _ _ _ E).
Qed.

(** A transform that raises ends in the scaling message. *)
Lemma predict_scaling_error :
  predict {| model := Some (Sample.constant_classifier (PyInt 1));
             sc := Some Sample.identity_scaler;
             ms := Some Sample.misfit_scaler;
             label_encoder := None |} Sample.form
  = (rendered
       "Error while scaling features: X has 7 features, but MinMaxScaler is expecting 3 features as input.",
     []).
Proof. vm_compute. reflexivity. Qed.

(** [float] takes the words nan, inf and infinity, in any case and with
    a sign: such a field passes the validation. *)
Lemma py_float_special_words :
  py_float "nan" = Ok S754_nan
  /\ py_float "-NaN" = Ok S754_nan
  /\ py_float "inf" = Ok (S754_infinity false)
  /\ py_float "-Infinity" = Ok (S754_infinity true)
  /\ py_float " 1_000.5e-3 " = py_float "1.0005".
Proof. vm_compute. repeat split. Qed.

(** The sample float is the one [float] reads from the text 1.9. *)
Lemma py_float_1_9 : py_float "1.9" = Ok Sample.f1_9.
Proof. vm_compute. reflexivity. Qed.

(** Raw output 1.9 with no encoder is Rice, the entry for key 1. *)
Lemma predict_1_9_is_rice :
  predict (Sample.app_of (PyFloat Sample.f1_9 "1.9") None) Sample.form
  = (rendered "Rice is the best crop to be cultivated right there.", []).
Proof. vm_compute. reflexivity. Qed.

(* ================================================================== *)
(** ** The claims at the samples *)

Lemma C1_witness :
  predict (Sample.app_of (PyInt 1) None) Sample.form
  = (rendered "Rice is the best crop to be cultivated right there.", [])
  /\ predict (Sample.app_of (PyInt 7) None) Sample.form
     = (rendered "Orange is the best crop to be cultivated right there.", [])
  /\ predict (Sample.app_of (PyInt 22) None) Sample.form
     = (rendered "Coffee is the best crop to be cultivated right there.", []).
Proof.
  split; [|split].
  - apply (C1_table_entry_is_recommended
             (Sample.app_of (PyInt 1) None) Sample.form (PyInt 1) 1 "Rice");
      [apply sample_raw_output | reflexivity | reflexivity | reflexivity|].
    unfold crop_dict. simpl. tauto.
  - apply (C1_table_entry_is_recommended
             (Sample.app_of (PyInt 7) None) Sample.form (PyInt 7) 7 "Orange");
      [apply sample_raw_output | reflexivity | reflexivity | reflexivity|].
    unfold crop_dict. simpl. tauto.
  - apply (C1_table_entry_is_recommended
             (Sample.app_of (PyInt 22) None) Sample.form (PyInt 22) 22 "Coffee");
      [apply sample_raw_output | reflexivity | reflexivity | reflexivity|].
    unfold crop_dict. simpl. tauto.
Defined.

Lemma C2_witness :
  resolve_crop_name (Some Sample.fruits) (PyInt 1) = (PyStr "banana", [])
  /\ dict_get crop_dict 1 = PyStr "Rice".
Proof.
  split; [|reflexivity].
  apply (proj1 (proj2 (C2_tiers_in_order Sample.fruits (PyInt 1)))
           1 (PyStr "banana") [] "Rice"); reflexivity.
Defined.

Lemma C3_witness :
  predict {| model := None; sc := Some Sample.identity_scaler;
             ms := Some Sample.identity_scaler; label_encoder := None |}
          Sample.abc_then_missing
  = (rendered config_error, []).
Proof.
  apply (C3_configuration_error
           {| model := None; sc := Some Sample.identity_scaler;
              ms := Some Sample.identity_scaler; label_encoder := None |}).
  left. reflexivity.
Defined.

Lemma C4_witness :
  predict (Sample.app_of (PyInt 1) None) (Sample.with_field "Ph" " " Sample.form)
  = (rendered "Please provide a value for Ph.", []).
Proof.
  refine (proj1 (proj2 (C4_first_missing_field
            (Sample.app_of (PyInt 1) None) (Sample.with_field "Ph" " " Sample.form)
            ["Nitrogen"; "Phosporus"; "Potassium"; "Temperature"; "Humidity"]
            ["Rainfall"] "Ph" _ _ _ _ _)));
    [ apply sample_available
    | reflexivity
    | apply numbers_all_some; vm_compute; reflexivity
    | reflexivity ].
Defined.

Lemma C5_witness :
  predict (Sample.app_of (PyInt 1) None) (Sample.with_field "Ph" "abc" Sample.form)
  = (rendered "Invalid numeric value for Ph: 'abc'", []).
Proof.
  refine (C5_first_invalid_number
            (Sample.app_of (PyInt 1) None) (Sample.with_field "Ph" "abc" Sample.form)
            ["Nitrogen"; "Phosporus"; "Potassium"; "Temperature"; "Humidity"]
            ["Rainfall"] "Ph" "abc" _
            (mk_exn ValueError "could not convert string to float: 'abc'")
            _ _ _ _ _ _);
    [ apply sample_available
    | reflexivity
    | apply numbers_all_some; vm_compute; reflexivity
    | reflexivity
    | reflexivity
    | reflexivity ].
Defined.

Lemma C6_witness :
  predict (Sample.app_of (PyInt 23) None) Sample.form
  = (rendered "Sorry, could not determine the best crop. Model output: 23", []).
Proof.
  apply (C6_unresolved_output (Sample.app_of (PyInt 23) None) Sample.form (PyInt 23)).
  - apply sample_raw_output.
  - reflexivity.
  - reflexivity.
  - intros k H. inversion H. reflexivity.
Defined.

Lemma C7_witness :
  exists (text : string) (printed : list string),
    predict {| model := Some (Sample.row_classifier (PyStr "wheat"));
               sc := Some Sample.identity_scaler;
               ms := Some Sample.misfit_scaler;
               label_encoder := Some Sample.fruits |} Sample.form
    = (rendered text, printed).
Proof.
  apply (C7_always_a_page
           {| model := Some (Sample.row_classifier (PyStr "wheat"));
              sc := Some Sample.identity_scaler;
              ms := Some Sample.misfit_scaler;
              label_encoder := Some Sample.fruits |} Sample.form).
  apply row_classifier_answers_a_label.
Defined.

Lemma C8_witness :
  predict (Sample.app_of (PyInt 1) None) Sample.form
  = predict (Sample.app_of (PyInt 1) None)
      (Sample.form ++ [("Nitrogen", "abc"); ("Comment", "none")])%list.
Proof.
  apply (C8_same_fields_same_answer (Sample.app_of (PyInt 1) None)).
  intros f Hf. unfold fields in Hf. simpl in Hf.
  repeat (destruct Hf as [<-|Hf]; [reflexivity|]). contradiction.
Defined.

Lemma C9_witness :
  fst (predict (Sample.app_of (PyInt 2) (Some Sample.fruits)) Sample.form)
  = rendered "Sorry, could not determine the best crop. Model output: 2".
Proof.
  apply (C9_empty_name_is_no_name
           (Sample.app_of (PyInt 2) (Some Sample.fruits)) Sample.form (PyInt 2)).
  - apply sample_raw_output.
  - left. exists Sample.fruits, 2%Z, []. repeat split.
Defined.

Lemma C10_witness :
  resolve_crop_name None (PyFloat Sample.f1_9 "1.9") = (PyStr "Rice", [])
  /\ resolve_crop_name None (PyFloat Sample.f7_9 "7.9") = (PyStr "Orange", [])
  /\ resolve_crop_name None (PyFloat (S754_finite true 8894609264056730 (-50)) "-7.9")
     = (PyNone, [])
  /\ resolve_crop_name (Some Sample.fruits) (PyFloat Sample.f1_9 "1.9")
     = (PyStr "banana", []).
Proof.
  split; [|split; [|split]].
  - apply (proj1 (proj2 (C10_lookup_under_truncated_code
                           false 8556839292003942 (-52) "1.9" PyNone)) "Rice").
    unfold crop_dict. simpl. tauto.
  - apply (proj1 (proj2 (C10_lookup_under_truncated_code
                           false 8894609264056730 (-50) "7.9" PyNone)) "Orange").
    unfold crop_dict. simpl. tauto.
  - apply (proj1 (proj2 (proj2 (C10_lookup_under_truncated_code
                           true 8894609264056730 (-50) "-7.9" PyNone)))).
    left. reflexivity.
  - apply (proj1 (proj2 (proj2 (proj2 (proj2 (C10_lookup_under_truncated_code
                           false 8556839292003942 (-52) "1.9" PyNone)))))
             Sample.fruits (PyStr "banana") []); reflexivity.
Defined.

(** C4, as first stated, fails on the code. With only Nitrogen blank
    the text ends with a full stop, so it is not exactly
    [Please provide a value for Nitrogen]; and with Nitrogen sent as
    abc and Phosporus missing, the first missing or blank field is
    Phosporus, yet the answer is about Nitrogen. *)
Lemma C4_counterexample :
  (find (missing_or_blank Sample.blank_nitrogen) fields = Some "Nitrogen"
   /\ predict (Sample.app_of (PyInt 1) None) Sample.blank_nitrogen
      = (rendered "Please provide a value for Nitrogen.", [])
   /\ predict (Sample.app_of (PyInt 1) None) Sample.blank_nitrogen
      <> (rendered "Please provide a value for Nitrogen", []))
  /\ (find (missing_or_blank Sample.abc_then_missing) fields = Some "Phosporus"
      /\ predict (Sample.app_of (PyInt 1) None) Sample.abc_then_missing
         = (rendered "Invalid numeric value for Nitrogen: 'abc'", [])).
Proof.
  repeat split; try (vm_compute; reflexivity).
  vm_compute. intros H. discriminate H.
Qed.

(** C5, as first stated, fails on the code. The text nan is sent, is
    not blank and is no real number, yet [float] takes it and the
    request goes on to the classifier; and with Nitrogen blank and
    Phosporus sent as abc the answer is about Nitrogen, not about the
    field that is not a number. *)
Lemma C5_counterexample :
  (form_get Sample.nan_nitrogen "Nitrogen" = Some "nan"
   /\ (py_strip "nan" =? "") = false
   /\ py_float "nan" = Ok S754_nan
   /\ predict (Sample.app_of (PyInt 1) None) Sample.nan_nitrogen
      = (rendered "Rice is the best crop to be cultivated right there.", []))
  /\ (form_get Sample.blank_then_abc "Phosporus" = Some "abc"
      /\ (py_strip "abc" =? "") = false
      /\ py_float "abc"
         = Raise (mk_exn ValueError "could not convert string to float: 'abc'")
      /\ predict (Sample.app_of (PyInt 1) None) Sample.blank_then_abc
         = (rendered "Please provide a value for Nitrogen.", [])).
Proof. repeat split; vm_compute; reflexivity. Qed.

(** C7, as first stated, fails on the code: the statement
    [pred = prediction[0]] stands outside every [try], so with a
    classifier whose [predict] answers an empty array the [IndexError]
    leaves the handler and no page is rendered. *)
Lemma C7_counterexample :
  predict {| model := Some Sample.mute_classifier;
             sc := Some Sample.identity_scaler;
             ms := Some Sample.identity_scaler;
             label_encoder := None |} Sample.form
  = (Raised (mk_exn IndexError "index 0 is out of bounds for axis 0 with size 0"), []).
Proof. vm_compute. reflexivity. Qed.

(* ================================================================== *)
(** * Further properties *)

(** ** Start-up: [safe_load] and the four loads *)

Lemma safe_load_cases {A : Type} (exists_ : string -> bool)
    (loader : string -> result (option A)) (path : string) :
  (exists obj, exists_ path = true /\ loader path = Ok obj
               /\ safe_load exists_ loader path = (obj, []))
  \/ (exists line,
        (exists_ path = false \/ exists e, loader path = Raise e)
        /\ safe_load exists_ loader path = (None, [line])).
Proof.
  unfold safe_load. destruct (exists_ path).
  - destruct (loader path) as [obj|e].
    + left. exists obj. repeat split.
    + right. eexists. split; [right; exists e; reflexivity | reflexivity].
  - right. eexists. split; [left; reflexivity | reflexivity].
Qed.

(** [safe_load] gives [None] exactly when the file is not there, the
    loader raises on it, or the loader itself gives [None] (a pickle of
    [None]). It prints one line in the first two cases and nothing
    whenever the loader returns, also when what it returns is [None]. *)
Theorem safe_load_none_iff_unloadable {A : Type} (exists_ : string -> bool)
    (loader : string -> result (option A)) (path : string) :
  (fst (safe_load exists_ loader path) = None
   <-> exists_ path = false
       \/ (exists e, loader path = Raise e)
       \/ loader path = Ok None)
  /\ List.length (snd (safe_load exists_ loader path))
     = (if exists_ path
        then match loader path with
             | Ok _ => 0%nat
             | Raise _ => 1%nat
             end
        else 1%nat).
Proof.
  unfold safe_load. destruct (exists_ path).
  - destruct (loader path) as [[obj|]|e]; cbn [fst snd io_ret List.length].
    + split; [|reflexivity]. split; [discriminate|].
      intros [H|[[e H]|H]]; discriminate H.
    + split; [|reflexivity]. split; [intros _; right; right; reflexivity | reflexivity].
    + split; [|reflexivity].
      split; [intros _; right; left; exists e; reflexivity | reflexivity].
  - split; [|reflexivity]. split; [intros _; left; reflexivity | reflexivity].
Qed.

Lemma print_if_loaded_lines {A : Type} (obj : option A) (line : string) :
  List.length (snd (print_if_loaded obj line))
  = match obj with Some _ => 1%nat | None => 0%nat end.
Proof. destruct obj; reflexivity. Qed.

Lemma safe_load_line_count {A : Type} (d : disk)
    (load : string -> result (option A)) (path line : string) :
  (List.length (snd (safe_load (path_exists d) load path))
   + List.length (snd (print_if_loaded (fst (safe_load (path_exists d) load path)) line))
   + Nat.b2n (pickled_None d load path))%nat = 1%nat.
Proof.
  unfold safe_load, pickled_None. destruct (path_exists d path).
  - destruct (load path) as [[obj|]|e]; reflexivity.
  - reflexivity.
Qed.

(** Start-up prints one line for each of the four artifacts - the
    warning or the error of its load, or else its confirmation - except
    for a file that holds a pickle of [None], which leaves its slot
    [None] without a line: four lines less the number of such files. *)
Theorem load_artifacts_prints_four_lines (BASE_DIR : string) (d : disk) :
  (List.length (snd (load_artifacts BASE_DIR d))
   + (Nat.b2n (pickled_None d (load_classifier d) (path_join BASE_DIR "model.pkl"))
      + Nat.b2n (pickled_None d (load_scaler d) (path_join BASE_DIR "standscaler.pkl"))
      + Nat.b2n (pickled_None d (load_scaler d) (path_join BASE_DIR "minmaxscaler.pkl"))
      + Nat.b2n (pickled_None d (load_encoder d)
                   (path_join BASE_DIR "label_encoder.pkl"))))%nat
  = 4%nat.
Proof.
  pose proof (safe_load_line_count d (load_classifier d)
                (path_join BASE_DIR "model.pkl") "Model loaded.") as H1.
  pose proof (safe_load_line_count d (load_scaler d)
                (path_join BASE_DIR "standscaler.pkl") "Standard scaler loaded.") as H2.
  pose proof (safe_load_line_count d (load_scaler d)
                (path_join BASE_DIR "minmaxscaler.pkl") "MinMax scaler loaded.") as H3.
  pose proof (safe_load_line_count d (load_encoder d)
                (path_join BASE_DIR "label_encoder.pkl") "Label encoder loaded.") as H4.
  unfold load_artifacts.
  destruct (safe_load _ (load_classifier d) _) as [m o1].
  destruct (safe_load _ (load_scaler d) (path_join BASE_DIR "standscaler.pkl")) as [s1 o2].
  destruct (safe_load _ (load_scaler d) (path_join BASE_DIR "minmaxscaler.pkl")) as [s2 o3].
  destruct (safe_load _ (load_encoder d) _) as [en o4].
  cbn [fst snd] in H1, H2, H3, H4.
  destruct (print_if_loaded m "Model loaded.") as [u1 p1] eqn:E1.
  destruct (print_if_loaded s1 "Standard scaler loaded.") as [u2 p2] eqn:E2.
  destruct (print_if_loaded s2 "MinMax scaler loaded.") as [u3 p3] eqn:E3.
  destruct (print_if_loaded en "Label encoder loaded.") as [u4 p4] eqn:E4.
  cbn [snd] in H1, H2, H3, H4.
  unfold io_bind, io_ret. rewrite E1, E2, E3, E4. cbn [snd].
  rewrite !length_app. cbn [List.length]. lia.
Qed.

Lemma safe_load_some_iff {A : Type} (d : disk)
    (load : string -> result (option A)) (path : string) :
  fst (safe_load (path_exists d) load path) <> None <-> loadable d load path.
Proof.
  unfold loadable, safe_load. destruct (path_exists d path).
  - destruct (load path) as [[obj|]|e]; cbn [fst io_ret].
    + split; [intros _; split; [reflexivity | exists obj; reflexivity] | discriminate].
    + split; [intros C; contradiction C; reflexivity|].
      intros [_ [obj H]]. discriminate H.
    + split; [intros C; contradiction C; reflexivity|].
      intros [_ [obj H]]. discriminate H.
  - split; [intros C; contradiction C; reflexivity|].
    intros [H _]. discriminate H.
Qed.

(** After start-up the handler can predict exactly when the classifier
    and both scalers were on disk and each unpickled to an object (a
    pickle of [None] does not count); the label encoder's file plays no
    part in it. *)
Theorem load_artifacts_available_iff (BASE_DIR : string) (d : disk) :
  available (fst (load_artifacts BASE_DIR d))
  <-> loadable d (load_classifier d) (path_join BASE_DIR "model.pkl")
      /\ loadable d (load_scaler d) (path_join BASE_DIR "standscaler.pkl")
      /\ loadable d (load_scaler d) (path_join BASE_DIR "minmaxscaler.pkl").
Proof.
  destruct (load_artifacts_slots BASE_DIR d) as (Hm & Hs & Hmm & _).
  unfold available. rewrite Hm, Hs, Hmm.
  rewrite !safe_load_some_iff. reflexivity.
Qed.

(** A model.pkl that holds a pickle of [None] is loaded without a
    word - three lines are printed, none about the classifier - and
    every request then gets the configuration error. *)
Lemma startup_with_None_model :
  snd (load_artifacts "/srv/app" Sample.disk_with_None_model)
  = ["Standard scaler loaded."; "MinMax scaler loaded."; "Label encoder loaded."]
  /\ model (fst (load_artifacts "/srv/app" Sample.disk_with_None_model)) = None
  /\ predict (fst (load_artifacts "/srv/app" Sample.disk_with_None_model)) Sample.form
     = (rendered config_error, []).
Proof. vm_compute. repeat split. Qed.

Lemma safe_load_unloadable {A : Type} (d : disk)
    (load : string -> result (option A)) (path : string) :
  unloadable d load path -> fst (safe_load (path_exists d) load path) = None.
Proof.
  intros H.
  destruct (safe_load_cases (path_exists d) load path)
    as [(obj & He & Hl & _)|(line & _ & ->)]; [|reflexivity].
  destruct H as [H|[e H]]; [rewrite He in H | rewrite Hl in H]; discriminate.
Qed.

(** When one of the three needed files is missing or does not
    unpickle, start-up still completes and every request gets the
    configuration error, whatever it sends. *)
Theorem startup_failure_is_configuration_error (BASE_DIR : string) (d : disk) :
  unloadable d (load_classifier d) (path_join BASE_DIR "model.pkl")
  \/ unloadable d (load_scaler d) (path_join BASE_DIR "standscaler.pkl")
  \/ unloadable d (load_scaler d) (path_join BASE_DIR "minmaxscaler.pkl") ->
  forall form : multidict,
    predict (fst (load_artifacts BASE_DIR d)) form = (rendered config_error, []).
Proof.
  intros H form.
  destruct (load_artifacts_slots BASE_DIR d) as (Hm & Hs & Hmm & _).
  unfold predict.
  destruct H as [H|[H|H]]; apply safe_load_unloadable in H.
  - rewrite Hm, H. reflexivity.
  - rewrite Hs, H. destruct (model _); reflexivity.
  - rewrite Hmm, H. destruct (model _); [destruct (sc _)|]; reflexivity.
Qed.

Lemma startup_failure_witness :
  predict (fst (load_artifacts "/srv/app" Sample.disk_without_minmax)) Sample.form
  = (rendered config_error, []).
Proof.
  apply (startup_failure_is_configuration_error "/srv/app" Sample.disk_without_minmax).
  right. right. left. reflexivity.
Defined.

(** ** Validation *)

Lemma field_number_of_raw (form : multidict) (f raw : string) (v : spec_float) :
  form_get form f = Some raw -> py_float raw = Ok v ->
  field_number form f = Some v.
Proof. intros Hg Hf. unfold field_number. rewrite Hg, Hf. reflexivity. Qed.

Lemma numbers_cons_intro (form : multidict) (f : string) (names : list string)
    (v : spec_float) (values : list spec_float) :
  field_number form f = Some v -> numbers form names values ->
  numbers form (f :: names) (v :: values).
Proof. unfold numbers. intros Hv H. simpl. rewrite Hv, H. reflexivity. Qed.

Lemma numbers_length (form : multidict) (names : list string)
    (values : list spec_float) :
  numbers form names values -> List.length values = List.length names.
Proof.
  unfold numbers. intros H. apply (f_equal (@List.length _)) in H.
  rewrite !length_map in H. symmetry. exact H.
Qed.

Lemma read_fields_next_inv (form : multidict) (todo : list string) :
  forall acc values,
    read_fields form todo acc = Next values ->
    exists vs, values = (acc ++ vs)%list /\ numbers form todo vs.
Proof.
  induction todo as [|f todo IH]; intros acc values H; simpl in H.
  - inversion H. exists []. split; [rewrite app_nil_r; reflexivity | reflexivity].
  - destruct (form_get form f) as [raw|] eqn:Hg; [|discriminate H].
    destruct (py_strip raw =? ""); [discriminate H|].
    destruct (py_float raw) as [v|e] eqn:Hf.
    + destruct (IH _ _ H) as (vs & -> & Hn). exists (v :: vs). split.
      * rewrite <- app_assoc. reflexivity.
      * exact (numbers_cons_intro _ _ _ _ _ (field_number_of_raw _ _ _ _ Hg Hf) Hn).
    + destruct (is_ValueError e); discriminate H.
Qed.

(** The loop hands on seven numbers, the values of the seven fields in
    the order of [fields]: the scalers only ever get such a row. *)
Theorem read_fields_gives_the_seven_numbers (form : multidict)
    (values : list spec_float) :
  read_fields form fields [] = Next values <->
  numbers form fields values /\ List.length values = 7%nat.
Proof.
  split.
  - intros H. destruct (read_fields_next_inv _ _ _ _ H) as (vs & -> & Hn).
    split; [exact Hn | exact (numbers_length _ _ _ Hn)].
  - intros [Hn _]. exact (read_fields_numbers _ _ _ Hn).
Qed.

Lemma read_fields_return_inv (form : multidict) (todo : list string) :
  forall acc p,
    read_fields form todo acc = Return p ->
    exists before field after vs,
      todo = (before ++ field :: after)%list
      /\ numbers form before vs
      /\ field_number form field = None
      /\ ((missing_or_blank form field = true
           /\ p = render_template "index.html"
                    (Some ("Please provide a value for " ++ field ++ ".")))
          \/ (exists raw,
                form_get form field = Some raw
                /\ missing_or_blank form field = false
                /\ p = render_template "index.html"
                         (Some ("Invalid numeric value for " ++ field
                                ++ ": '" ++ raw ++ "'")))).
Proof.
  induction todo as [|f todo IH]; intros acc p H; simpl in H; [discriminate H|].
  destruct (form_get form f) as [raw|] eqn:Hg.
  - destruct (py_strip raw =? "") eqn:Hb.
    + exists [], f, todo, []. repeat split.
      * unfold field_number. rewrite Hg.
        destruct (py_float raw) as [v|e] eqn:Hf; [|reflexivity].
        rewrite (py_float_not_blank _ _ Hf) in Hb. discriminate Hb.
      * left. unfold missing_or_blank. rewrite Hg. split; [exact Hb|].
        inversion H. reflexivity.
    + destruct (py_float raw) as [v|e] eqn:Hf.
      * destruct (IH _ _ H) as (before & field & after & vs & -> & Hn & Hnone & Hp).
        exists (f :: before), field, after, (v :: vs). repeat split.
        -- exact (numbers_cons_intro _ _ _ _ _ (field_number_of_raw _ _ _ _ Hg Hf) Hn).
        -- exact Hnone.
        -- exact Hp.
      * rewrite (py_float_raises_ValueError _ _ Hf) in H.
        exists [], f, todo, []. repeat split.
        -- unfold field_number. rewrite Hg, Hf. reflexivity.
        -- right. exists raw. split; [exact Hg | split].
           ++ unfold missing_or_blank. rewrite Hg. exact Hb.
           ++ inversion H. reflexivity.
  - exists [], f, todo, []. repeat split.
    + unfold field_number. rewrite Hg. reflexivity.
    + left. unfold missing_or_blank. rewrite Hg. split; [reflexivity|].
      inversion H. reflexivity.
Qed.

(** A page the validation returns is always about the first field that
    holds no number: every field before it holds one, and the text is
    the missing-value message when that field is missing or blank and
    the invalid-number message, with the raw text, otherwise. *)
Theorem validation_page_names_first_bad_field (form : multidict) (p : page) :
  read_fields form fields [] = Return p ->
  exists before field after values,
    fields = (before ++ field :: after)%list
    /\ numbers form before values
    /\ field_number form field = None
    /\ ((missing_or_blank form field = true
         /\ p = render_template "index.html"
                  (Some ("Please provide a value for " ++ field ++ ".")))
        \/ (exists raw,
              form_get form field = Some raw
              /\ missing_or_blank form field = false
              /\ p = render_template "index.html"
                       (Some ("Invalid numeric value for " ++ field
                              ++ ": '" ++ raw ++ "'")))).
Proof. apply read_fields_return_inv. Qed.

Lemma validation_page_witness :
  exists before field after values,
    fields = (before ++ field :: after)%list
    /\ numbers Sample.abc_then_missing before values
    /\ field_number Sample.abc_then_missing field = None
    /\ ((missing_or_blank Sample.abc_then_missing field = true
         /\ render_template "index.html"
              (Some "Invalid numeric value for Nitrogen: 'abc'")
            = render_template "index.html"
                (Some ("Please provide a value for " ++ field ++ ".")))
        \/ (exists raw,
              form_get Sample.abc_then_missing field = Some raw
              /\ missing_or_blank Sample.abc_then_missing field = false
              /\ render_template "index.html"
                   (Some "Invalid numeric value for Nitrogen: 'abc'")
                 = render_template "index.html"
                     (Some ("Invalid numeric value for " ++ field
                            ++ ": '" ++ raw ++ "'")))).
Proof.
  apply (validation_page_names_first_bad_field Sample.abc_then_missing).
  reflexivity.
Defined.

Lemma bad_field_stops_the_loop (form : multidict) (f : string) :
  In f fields -> field_number form f = None ->
  exists p, read_fields form fields [] = Return p.
Proof.
  intros Hin Hnone.
  destruct (read_fields_total form fields []) as [[values H]|[text H]].
  - destruct (read_fields_next_inv _ _ _ _ H) as (vs & _ & Hn).
    unfold numbers in Hn.
    assert (Hs : In (field_number form f) (map Some vs)).
    { rewrite <- Hn. apply in_map. exact Hin. }
    rewrite Hnone in Hs. apply in_map_iff in Hs.
    destruct Hs as (v & Hv & _). discriminate Hv.
  - eexists. exact H.
Qed.

(** A submission with a field that holds no number never reaches the
    artifacts: the answer is the same with any loaded scalers,
    classifier and label encoder, and nothing is printed. *)
Theorem invalid_form_never_reaches_artifacts (app1 app2 : artifacts)
    (form : multidict) (f : string) :
  available app1 -> available app2 ->
  In f fields -> field_number form f = None ->
  predict app1 form = predict app2 form /\ snd (predict app1 form) = [].
Proof.
  intros H1 H2 Hin Hnone.
  destruct (bad_field_stops_the_loop _ _ Hin Hnone) as [p Hp].
  rewrite (predict_page_of_loop _ _ _ H1 Hp), (predict_page_of_loop _ _ _ H2 Hp).
  split; reflexivity.
Qed.

Lemma invalid_form_witness :
  predict (Sample.app_of (PyInt 1) None) Sample.blank_then_abc
  = predict {| model := Some Sample.unfitted_classifier;
               sc := Some Sample.misfit_scaler;
               ms := Some Sample.misfit_scaler;
               label_encoder := Some Sample.fruits |} Sample.blank_then_abc
  /\ snd (predict (Sample.app_of (PyInt 1) None) Sample.blank_then_abc) = [].
Proof.
  apply (invalid_form_never_reaches_artifacts _ _ Sample.blank_then_abc "Phosporus").
  - apply sample_available.
  - repeat split; discriminate.
  - right. left. reflexivity.
  - reflexivity.
Defined.

(** The blank test never turns a number away: a text [float] accepts
    is not emptied by [strip()], although [strip()] removes more kinds
    of blanks than [float] skips; so the loop takes the value of every
    field [float] accepts. *)
Theorem accepted_number_is_never_blank (form : multidict) (field raw : string)
    (val : spec_float) (todo : list string) (values : list spec_float) :
  form_get form field = Some raw ->
  py_float raw = Ok val ->
  py_strip raw <> ""
  /\ read_fields form (field :: todo) values
     = read_fields form todo (values ++ [val]).
Proof.
  intros Hg Hf. split.
  - intros C. pose proof (py_float_not_blank _ _ Hf) as Hb.
    rewrite C in Hb. discriminate Hb.
  - exact (read_fields_step _ _ _ _ _ (field_number_of_raw _ _ _ _ Hg Hf)).
Qed.

Lemma accepted_number_witness :
  py_strip " 6.5 " <> ""
  /\ read_fields (Sample.with_field "Ph" " 6.5 " Sample.form) ["Ph"; "Rainfall"] []
     = read_fields (Sample.with_field "Ph" " 6.5 " Sample.form) ["Rainfall"]
         ([] ++ [S754_finite false 7318349394477056 (-50)]).
Proof.
  apply (accepted_number_is_never_blank
           (Sample.with_field "Ph" " 6.5 " Sample.form) "Ph" " 6.5 ");
    reflexivity.
Defined.

Lemma form_get_app (form more : multidict) (f : string) :
  form_get form f <> None -> form_get (form ++ more)%list f = form_get form f.
Proof.
  induction form as [|[k v] form IH]; simpl; intros H; [contradiction H; reflexivity|].
  destruct (k =? f); [reflexivity | exact (IH H)].
Qed.

(** Only the first value under each of the seven names counts: when
    the form sends all seven, anything sent after them - other fields,
    or the same names once more - changes neither the page nor what is
    printed. *)
Theorem later_values_are_ignored (app : artifacts) (form more : multidict) :
  (forall f, In f fields -> form_get form f <> None) ->
  predict app (form ++ more)%list = predict app form.
Proof.
  intros H. unfold predict.
  rewrite (read_fields_ext (form ++ more)%list form fields); [reflexivity|].
  intros f Hf. exact (form_get_app _ _ _ (H f Hf)).
Qed.

Lemma later_values_witness :
  predict (Sample.app_of (PyInt 1) None)
    (Sample.form ++ [("Ph", "abc"); ("Comment", "none")])%list
  = predict (Sample.app_of (PyInt 1) None) Sample.form.
Proof.
  apply (later_values_are_ignored (Sample.app_of (PyInt 1) None) Sample.form).
  intros f Hf. unfold fields in Hf. simpl in Hf.
  repeat (destruct Hf as [<-|Hf]; [discriminate|]). contradiction.
Defined.

(** ** Scaling and classification *)

(** The MinMax scaler runs first and the standard scaler gets its
    output; when either raises, the page carries the scaling message
    with the exception's text, the classifier and the label encoder are
    not used, and nothing is printed. *)
Theorem scaling_failure_is_reported (app : artifacts) (form : multidict)
    (clf : classifier) (std mm : scaler) (values : list spec_float) (e : exn) :
  model app = Some clf -> sc app = Some std -> ms app = Some mm ->
  numbers form fields values ->
  transform mm [values] = Raise e
  \/ (exists scaled_features,
        transform mm [values] = Ok scaled_features
        /\ transform std scaled_features = Raise e) ->
  predict app form
  = (rendered ("Error while scaling features: " ++ exn_msg e), []).
Proof.
  intros Hm Hs Hmm Hn H. unfold predict.
  rewrite Hm, Hs, Hmm, (read_fields_numbers _ _ _ Hn). cbv zeta.
  destruct H as [H|(scaled & H1 & H2)].
  - rewrite H. reflexivity.
  - rewrite H1. cbn [res_bind]. rewrite H2. reflexivity.
Qed.

Lemma scaling_failure_witness :
  predict {| model := Some Sample.unfitted_classifier;
             sc := Some Sample.misfit_scaler;
             ms := Some Sample.identity_scaler;
             label_encoder := Some Sample.fruits |} Sample.form
  = (rendered
       "Error while scaling features: X has 7 features, but MinMaxScaler is expecting 3 features as input.",
     []).
Proof.
  refine (scaling_failure_is_reported
            {| model := Some Sample.unfitted_classifier;
               sc := Some Sample.misfit_scaler;
               ms := Some Sample.identity_scaler;
               label_encoder := Some Sample.fruits |} Sample.form
            Sample.unfitted_classifier Sample.misfit_scaler Sample.identity_scaler
            _ (mk_exn ValueError
                 "X has 7 features, but MinMaxScaler is expecting 3 features as input.")
            eq_refl eq_refl eq_refl _ _).
  - apply numbers_all_some. vm_compute. reflexivity.
  - right. eexists. split; reflexivity.
Defined.

(** When the classifier raises on the scaled row, the page carries the
    prediction message with the exception's text; the label encoder is
    not used and nothing is printed. *)
Theorem prediction_failure_is_reported (app : artifacts) (form : multidict)
    (clf : classifier) (std mm : scaler) (values : list spec_float)
    (scaled_features final_features : matrix) (e : exn) :
  model app = Some clf -> sc app = Some std -> ms app = Some mm ->
  numbers form fields values ->
  transform mm [values] = Ok scaled_features ->
  transform std scaled_features = Ok final_features ->
  clf_predict clf final_features = Raise e ->
  predict app form
  = (rendered ("Error during model prediction: " ++ exn_msg e), []).
Proof.
  intros Hm Hs Hmm Hn H1 H2 H3. unfold predict.
  rewrite Hm, Hs, Hmm, (read_fields_numbers _ _ _ Hn). cbv zeta.
  rewrite H1. cbn [res_bind]. rewrite H2, H3. reflexivity.
Qed.

Lemma prediction_failure_witness :
  predict {| model := Some Sample.unfitted_classifier;
             sc := Some Sample.identity_scaler;
             ms := Some Sample.identity_scaler;
             label_encoder := Some Sample.fruits |} Sample.form
  = (rendered
       "Error during model prediction: This RandomForestClassifier instance is not fitted yet.",
     []).
Proof.
  refine (prediction_failure_is_reported
            {| model := Some Sample.unfitted_classifier;
               sc := Some Sample.identity_scaler;
               ms := Some Sample.identity_scaler;
               label_encoder := Some Sample.fruits |} Sample.form
            Sample.unfitted_classifier Sample.identity_scaler Sample.identity_scaler
            _ _ _ (mk_exn (OtherException "NotFittedError")
                     "This RandomForestClassifier instance is not fitted yet.")
            eq_refl eq_refl eq_refl _ eq_refl eq_refl eq_refl).
  apply numbers_all_some. vm_compute. reflexivity.
Defined.

(** For artifacts as they are modelled here - a classifier whose
    [predict] raises or answers an array of labels, possibly empty -
    the handler ends in a page with a result text, or else the answer
    was the empty array and the [IndexError] of indexing it leaves the
    handler: on such artifacts no other exception escapes. (An answer
    that is no array, such as a scalar or [None], is outside this
    model; indexing it raises as well.) *)
Theorem only_an_empty_answer_escapes (app : artifacts) (form : multidict) :
  (exists (text : string) (printed : list string),
      predict app form = (rendered text, printed))
  \/ (exists clf final_features,
        model app = Some clf
        /\ clf_predict clf final_features = Ok []
        /\ predict app form
           = (Raised (mk_exn IndexError
                        "index 0 is out of bounds for axis 0 with size 0"), [])).
Proof.
  unfold predict.
  destruct (model app) as [clf|]; [|left; eexists; eexists; reflexivity].
  destruct (sc app) as [std|]; [|left; eexists; eexists; reflexivity].
  destruct (ms app) as [mm|]; [|left; eexists; eexists; reflexivity].
  destruct (read_fields_total form fields []) as [[values ->]|[text ->]];
    [|left; eexists; eexists; reflexivity].
  cbv zeta.
  destruct (transform mm [values]) as [scaled|e]; cbn [res_bind];
    [|left; eexists; eexists; reflexivity].
  destruct (transform std scaled) as [final|e];
    [|left; eexists; eexists; reflexivity].
  destruct (clf_predict clf final) as [[|pred rest]|e] eqn:E.
  - right. exists clf, final. repeat split. exact E.
  - left. cbn [getitem0].
    rewrite (io_bind_ret _ (fun crop_name => rendered (result_message crop_name pred))).
    eexists; eexists; reflexivity.
  - left; eexists; eexists; reflexivity.
Qed.

(** ** What a request prints *)

Lemma resolve_prints (label_encoder : option encoder) (pred : pyval) :
  snd (resolve_crop_name label_encoder pred) = []
  \/ (exists enc e,
        label_encoder = Some enc /\ inverse_label enc pred = Raise e
        /\ snd (resolve_crop_name label_encoder pred)
           = ["[WARN] label_encoder inverse transform failed: " ++ exn_msg e]).
Proof.
  destruct label_encoder as [enc|]; [|left; reflexivity].
  destruct (inverse_label enc pred) as [name|e] eqn:E.
  - left. unfold resolve_crop_name, tier_encoder. rewrite E. reflexivity.
  - right. exists enc, e. split; [reflexivity | split; [exact E|]].
    rewrite (resolve_encoder_failed _ _ _ E). reflexivity.
Qed.

(** A request prints at most one line: the warning of a label encoder
    that is loaded and raised. Without a label encoder nothing is ever
    printed. *)
Theorem predict_prints_at_most_the_warning (app : artifacts) (form : multidict) :
  snd (predict app form) = []
  \/ (exists enc e,
        label_encoder app = Some enc
        /\ snd (predict app form)
           = ["[WARN] label_encoder inverse transform failed: " ++ exn_msg e]).
Proof.
  unfold predict.
  destruct (model app) as [clf|]; [|left; reflexivity].
  destruct (sc app) as [std|]; [|left; reflexivity].
  destruct (ms app) as [mm|]; [|left; reflexivity].
  destruct (read_fields form fields []) as [values|p|e]; [|left; reflexivity..].
  cbv zeta.
  destruct (transform mm [values]) as [scaled|e]; cbn [res_bind]; [|left; reflexivity].
  destruct (transform std scaled) as [final|e]; [|left; reflexivity].
  destruct (clf_predict clf final) as [[|pred rest]|e]; [left; reflexivity| |left; reflexivity].
  cbn [getitem0].
  rewrite (io_bind_ret _ (fun crop_name => rendered (result_message crop_name pred))).
  cbn [snd].
  destruct (resolve_prints (label_encoder app) pred) as [H|(enc & e & H1 & _ & H2)].
  - left. exact H.
  - right. exists enc, e. split; assumption.
Qed.

(** ** The name shown *)

(** A name the label encoder gives for [int(pred)] is the one shown
    whenever it is a true value, whatever the prediction's type and
    whatever the static table holds; a string prediction that reads as
    an integer is looked up by the encoder under that integer. *)
Theorem encoder_name_is_shown (app : artifacts) (form : multidict)
    (pred : pyval) (enc : encoder) (k : Z) (name : pyval) (rest : list pyval) :
  raw_output app form pred ->
  label_encoder app = Some enc ->
  py_int pred = Ok k ->
  inverse_transform enc [k] = Ok (name :: rest) ->
  py_bool name = true ->
  predict app form
  = (rendered (py_str name ++ " is the best crop to be cultivated right there."), []).
Proof.
  intros Hraw Henc Hk Hn Hb.
  rewrite (predict_raw_output _ _ _ Hraw), Henc.
  rewrite (resolve_encoder_named enc pred name (inverse_label_first _ _ _ _ _ Hk Hn)).
  - cbn [fst snd]. unfold result_message. rewrite Hb. reflexivity.
  - destruct name; [discriminate Hb | reflexivity..].
Qed.

Lemma encoder_name_witness :
  predict (Sample.app_of (PyStr " 3 ") (Some Sample.fruits)) Sample.form
  = (rendered "kiwi is the best crop to be cultivated right there.", []).
Proof.
  apply (encoder_name_is_shown
           (Sample.app_of (PyStr " 3 ") (Some Sample.fruits)) Sample.form
           (PyStr " 3 ") Sample.fruits 3 (PyStr "kiwi") []).
  - apply sample_raw_output.
  - reflexivity.
  - reflexivity.
  - reflexivity.
  - reflexivity.
Defined.

(** A name the label encoder gives that is not [None] but counts as
    false - the integer 0, a float zero, the empty string - ends the
    resolution all the same: the later tiers are skipped and the page
    is the could-not-determine message with the raw prediction. *)
Theorem false_encoder_name_is_no_name (app : artifacts) (form : multidict)
    (pred : pyval) (enc : encoder) (k : Z) (name : pyval) (rest : list pyval) :
  raw_output app form pred ->
  label_encoder app = Some enc ->
  py_int pred = Ok k ->
  inverse_transform enc [k] = Ok (name :: rest) ->
  is_None name = false ->
  py_bool name = false ->
  predict app form
  = (rendered ("Sorry, could not determine the best crop. Model output: "
               ++ py_str pred), []).
Proof.
  intros Hraw Henc Hk Hn Hnone Hb.
  rewrite (predict_raw_output _ _ _ Hraw), Henc.
  rewrite (resolve_encoder_named enc pred name
             (inverse_label_first _ _ _ _ _ Hk Hn) Hnone).
  cbn [fst snd]. unfold result_message. rewrite Hb. reflexivity.
Qed.

Lemma false_encoder_name_witness :
  predict (Sample.app_of (PyInt 5)
             (Some {| inverse_transform := fun codes => Ok (map (fun _ => PyInt 0) codes) |}))
          Sample.form
  = (rendered "Sorry, could not determine the best crop. Model output: 5", []).
Proof.
  apply (false_encoder_name_is_no_name
           (Sample.app_of (PyInt 5)
              (Some {| inverse_transform := fun codes => Ok (map (fun _ => PyInt 0) codes) |}))
           Sample.form (PyInt 5)
           {| inverse_transform := fun codes => Ok (map (fun _ => PyInt 0) codes) |}
           5 (PyInt 0) []).
  - apply sample_raw_output.
  - reflexivity.
  - reflexivity.
  - reflexivity.
  - reflexivity.
  - reflexivity.
Defined.

(** A string prediction that is not empty is shown as it is when no
    label encoder is loaded or the text does not read as an integer; it
    is never looked up in the static table, not even when it reads as
    one of its keys. *)
Theorem string_prediction_is_shown_verbatim (app : artifacts) (form : multidict)
    (s : string) :
  raw_output app form (PyStr s) ->
  s <> "" ->
  label_encoder app = None \/ (exists e, py_int (PyStr s) = Raise e) ->
  fst (predict app form)
  = rendered (s ++ " is the best crop to be cultivated right there.").
Proof.
  intros Hraw Hs H. rewrite (predict_raw_output _ _ _ Hraw). cbn [fst].
  assert (Hb : py_bool (PyStr s) = true).
  { cbn [py_bool]. destruct (String.eqb_spec s ""); [contradiction | reflexivity]. }
  assert (Hshow : result_message (PyStr s) (PyStr s)
                  = s ++ " is the best crop to be cultivated right there.").
  { unfold result_message. rewrite Hb. reflexivity. }
  destruct (label_encoder app) as [enc|].
  - destruct H as [H|[e He]]; [discriminate H|].
    rewrite (resolve_encoder_failed _ _ _ (inverse_label_int_failed enc _ _ He)).
    cbn [fst]. rewrite resolve_without_encoder. cbn [fst].
    unfold tier_table, tier_text. cbn [is_None isinstance_str].
    rewrite Hshow. reflexivity.
  - rewrite resolve_without_encoder. cbn [fst].
    unfold tier_table, tier_text. cbn [is_None isinstance_str].
    rewrite Hshow. reflexivity.
Qed.

Lemma string_prediction_witness :
  fst (predict (Sample.app_of (PyStr "1") None) Sample.form)
  = rendered "1 is the best crop to be cultivated right there.".
Proof.
  apply (string_prediction_is_shown_verbatim
           (Sample.app_of (PyStr "1") None) Sample.form "1").
  - apply sample_raw_output.
  - discriminate.
  - left. reflexivity.
Defined.

Lemma crop_dict_inside (k : Z) :
  (1 <= k <= 22)%Z -> exists name, dict_get crop_dict k = PyStr name.
Proof.
  intros H.
  assert (C : (k = 1 \/ k = 2 \/ k = 3 \/ k = 4 \/ k = 5 \/ k = 6 \/ k = 7
               \/ k = 8 \/ k = 9 \/ k = 10 \/ k = 11 \/ k = 12 \/ k = 13
               \/ k = 14 \/ k = 15 \/ k = 16 \/ k = 17 \/ k = 18 \/ k = 19
               \/ k = 20 \/ k = 21 \/ k = 22)%Z) by lia.
  repeat (destruct C as [->|C]; [eexists; reflexivity|]).
  subst k. eexists. reflexivity.
Qed.

(** With no label encoder, a prediction that is not a string is named
    exactly when its integer value lies between 1 and 22: then the page
    recommends the table's crop for it, and for 0, a negative value or
    anything above 22 it is the could-not-determine message. *)
Theorem table_names_codes_1_to_22 (app : artifacts) (form : multidict)
    (pred : pyval) (k : Z) :
  raw_output app form pred ->
  label_encoder app = None ->
  isinstance_str pred = false ->
  py_int pred = Ok k ->
  ((1 <= k <= 22)%Z ->
   exists name,
     In (k, name) crop_dict
     /\ predict app form
        = (rendered (name ++ " is the best crop to be cultivated right there."), []))
  /\ ((k < 1 \/ 22 < k)%Z ->
      predict app form
      = (rendered ("Sorry, could not determine the best crop. Model output: "
                   ++ py_str pred), [])).
Proof.
  intros Hraw Henc Hstr Hk.
  assert (Hpage : predict app form
                  = (rendered (result_message (dict_get crop_dict k) pred), [])).
  { rewrite (predict_raw_output _ _ _ Hraw), Henc, resolve_without_encoder.
    cbn [fst snd]. unfold tier_table, tier_text.
    cbn [is_None]. rewrite Hstr. cbn [is_None]. rewrite Hk. reflexivity. }
  split.
  - intros Hin. destruct (crop_dict_inside k Hin) as [name Hget].
    exists name. split.
    + destruct (dict_get_cases crop_dict k) as [E|(n & E & Hn)];
        rewrite E in Hget; [discriminate Hget|].
      inversion Hget; subst n. exact Hn.
    + rewrite Hpage, Hget. unfold result_message.
      rewrite (crop_dict_names_truthy _ _ Hget). reflexivity.
  - intros Hout. rewrite Hpage, (crop_dict_outside k Hout). reflexivity.
Qed.

Lemma table_names_witness :
  (exists name,
      In (22%Z, name) crop_dict
      /\ predict (Sample.app_of (PyInt 22) None) Sample.form
         = (rendered (name ++ " is the best crop to be cultivated right there."), []))
  /\ predict (Sample.app_of (PyInt 0) None) Sample.form
     = (rendered "Sorry, could not determine the best crop. Model output: 0", []).
Proof.
  split.
  - apply (proj1 (table_names_codes_1_to_22
                    (Sample.app_of (PyInt 22) None) Sample.form (PyInt 22) 22
                    (sample_raw_output _ _) eq_refl eq_refl eq_refl)).
    lia.
  - apply (proj2 (table_names_codes_1_to_22
                    (Sample.app_of (PyInt 0) None) Sample.form (PyInt 0) 0
                    (sample_raw_output _ _) eq_refl eq_refl eq_refl)).
    lia.
Defined.

(** ** The configuration error *)

Lemma list_ascii_of_string_app (a b : string) :
  list_ascii_of_string (a ++ b)
  = (list_ascii_of_string a ++ list_ascii_of_string b)%list.
Proof. induction a as [|c a IH]; simpl; [reflexivity | rewrite IH; reflexivity]. Qed.

(** No recommendation reads as the configuration error: the two texts
    end differently. *)
Lemma recommendation_is_not_config_error (name : string) :
  name ++ " is the best crop to be cultivated right there." <> config_error.
Proof.
  intros H.
  apply (f_equal (fun s => rev (list_ascii_of_string s))) in H.
  rewrite list_ascii_of_string_app, rev_app_distr in H.
  vm_compute in H. discriminate H.
Qed.

Lemma result_message_is_not_config_error (crop_name pred : pyval) :
  result_message crop_name pred <> config_error.
Proof.
  unfold result_message. destruct (py_bool crop_name).
  - apply recommendation_is_not_config_error.
  - intros H. vm_compute in H. discriminate H.
Qed.

(** With the classifier and both scalers loaded, no request is
    answered with the configuration error: that page is kept for a
    failed start-up, and cannot be caused by what a request sends or by
    what the artifacts answer. *)
Theorem config_error_only_when_unavailable (app : artifacts) (form : multidict) :
  available app ->
  fst (predict app form) <> rendered config_error.
Proof.
  intros Ha. destruct (available_loaded _ Ha) as (clf & std & mm & Hm & Hs & Hmm).
  unfold predict. rewrite Hm, Hs, Hmm.
  destruct (read_fields form fields []) as [values|p|e] eqn:Hloop.
  - cbv zeta.
    destruct (transform mm [values]) as [scaled|e]; cbn [res_bind];
      [|intros H; vm_compute in H; discriminate H].
    destruct (transform std scaled) as [final|e];
      [|intros H; vm_compute in H; discriminate H].
    destruct (clf_predict clf final) as [[|pred rest]|e];
      [discriminate | |intros H; vm_compute in H; discriminate H].
    cbn [getitem0].
    rewrite (io_bind_ret _ (fun crop_name => rendered (result_message crop_name pred))).
    cbn [fst]. intros H. inversion H as [H'].
    exact (result_message_is_not_config_error _ _ H').
  - destruct (read_fields_return_inv _ _ _ _ Hloop)
      as (before & field & after & vs & _ & _ & _ & [[_ ->]|(raw & _ & _ & ->)]);
      intros H; vm_compute in H; discriminate H.
  - discriminate.
Qed.

Lemma config_error_witness :
  fst (predict (Sample.app_of (PyStr "Server configuration error") None) Sample.form)
  <> rendered config_error
  /\ available (Sample.app_of (PyStr "Server configuration error") None).
Proof.
  split; [|apply sample_available].
  apply (config_error_only_when_unavailable
           (Sample.app_of (PyStr "Server configuration error") None) Sample.form).
  apply sample_available.
Defined.
